(** * Genes-N-Risks: the statistics helpers of [genocode/vectorized_datavis.py]

    A shallow embedding of the numeric module behind the dashboard, and the
    properties its specification states about it.

    Modelling conventions.
    - A Python [float] is a real number of [R]: rounding, overflow to
      infinity and NaN are outside the model, except inside
      [statistics.NormalDist], whose branches test computed floats against
      zero: there a result is a [float64], which underflows to zero,
      overflows to an infinity and can be NaN.  A Python [int] is a [Z].
    - A dynamically typed scalar is a [pyval]; an argument that may be a
      numpy array is a [pyobj].
    - A Python exception is a value of [pyexc], and a fallible computation
      returns a [result].
    - [numpy.random.normal] draws from the process-wide generator: its state
      is threaded explicitly ([rand]).
    - [numpy], [math] and [statistics] are not part of the repository; the
      functions used from them are modelled after their documentation and
      named after the library function they stand for. *)

From Stdlib Require Import Reals Lra Lia ZArith List String Ascii Bool Arith.
From Stdlib Require Import DecimalString Permutation.
Import ListNotations.

Local Open Scope R_scope.

(** ** Python values, exceptions and results *)

Inductive pyval : Type :=
| PNone
| PFloat (x : R)
| PInt (n : Z)
| PStr (s : string).

Inductive pyobj : Type :=
| Scalar (v : pyval)
| NdArray (l : list pyval).

Inductive pyexc : Type :=
| TypeError
| ValueError
| KeyError
| IndexError
| UnboundLocalError
| ZeroDivisionError
| StatisticsError.

Inductive result (A : Type) : Type :=
| Ok (a : A)
| Raise (e : pyexc).

Arguments Ok {A} a.
Arguments Raise {A} e.

Definition bind {A B : Type} (r : result A) (k : A -> result B) : result B :=
  match r with
  | Ok a => k a
  | Raise e => Raise e
  end.

Declare Scope py_scope.
Delimit Scope py_scope with py.
Notation "x <- e ;; k" := (bind e (fun x => k))
  (at level 61, e at next level, right associativity) : py_scope.
Notation "' p <- e ;; k" := (bind e (fun p => k))
  (at level 61, p pattern, e at next level, right associativity) : py_scope.
Local Open Scope py_scope.

Definition raises {A : Type} (r : result A) : Prop :=
  exists e, r = Raise e.

(** ** Builtins *)

Inductive pyclass : Type := Cfloat | Cint | Cstr.

(** The second argument of [isinstance]: a class, or some other object. *)
Inductive classinfo : Type :=
| Class (c : pyclass)
| NotAClass (v : pyval).

(** [isinstance(v, classinfo)].  A [classinfo] that is not a type raises
    [TypeError], whatever [v] is. *)
Definition isinstance (v : pyval) (ci : classinfo) : result bool :=
  match ci with
  | Class Cfloat => Ok (match v with PFloat _ => true | _ => false end)
  | Class Cint => Ok (match v with PInt _ => true | _ => false end)
  | Class Cstr => Ok (match v with PStr _ => true | _ => false end)
  | NotAClass _ => Raise TypeError
  end.

(** [isinstance(o, np.ndarray)]. *)
Definition is_ndarray (o : pyobj) : bool :=
  match o with
  | NdArray _ => true
  | Scalar _ => false
  end.

(** The numeric value of an [int] or a [float], as binary operators coerce it. *)
Definition number (v : pyval) : option R :=
  match v with
  | PFloat x => Some x
  | PInt n => Some (IZR n)
  | _ => None
  end.

(** [a + b], [a - b], [a * b] on numbers; in this module one operand is
    always a [float], so any other operand raises [TypeError]. *)
Definition py_binop (fR : R -> R -> R) (fZ : Z -> Z -> Z) (a b : pyval)
  : result pyval :=
  match a, b with
  | PInt m, PInt n => Ok (PInt (fZ m n))
  | _, _ =>
    match number a, number b with
    | Some x, Some y => Ok (PFloat (fR x y))
    | _, _ => Raise TypeError
    end
  end.

Definition py_add := py_binop Rplus Z.add.
Definition py_sub := py_binop Rminus Z.sub.
Definition py_mul := py_binop Rmult Z.mul.

(** [a / b], true division. *)
Definition py_truediv (a b : pyval) : result pyval :=
  match number a, number b with
  | Some x, Some y =>
    if Req_EM_T y 0 then Raise ZeroDivisionError else Ok (PFloat (x / y))
  | _, _ => Raise TypeError
  end.

(** [math.sqrt(n)] of an [int]. *)
Definition math_sqrt (n : Z) : result R :=
  if (n <? 0)%Z then Raise ValueError else Ok (sqrt (IZR n)).

(** A dict with [float] keys, in insertion order. *)
Fixpoint dict_get (d : list (R * R)) (k : R) : result R :=
  match d with
  | [] => Raise KeyError
  | (k', v) :: d' => if Req_EM_T k k' then Ok v else dict_get d' k
  end.

(** [o[i]]. *)
Definition subscript (o : pyobj) (i : nat) : result pyval :=
  match o with
  | NdArray l =>
    match nth_error l i with
    | Some v => Ok v
    | None => Raise IndexError
    end
  | Scalar (PStr s) =>
    match String.get i s with
    | Some c => Ok (PStr (String c EmptyString))
    | None => Raise IndexError
    end
  | Scalar _ => Raise TypeError
  end.

(** [np.empty(count, dtype=object)]: [count] cells holding [None]. *)
Definition np_empty (count : nat) : pyobj := NdArray (repeat PNone count).

Section Datavis.

(** The two collaborators the module leaves to its environment: the parser
    behind [float(str)] ([None] when the string is not numeric) and the
    standard normal generator behind [numpy.random]. *)
Variable float_of_string : string -> option R.
Variable rng : Type.
Variable gauss : rng -> R * rng.

(** A computation that may draw random numbers. *)
Definition rand (A : Type) : Type := rng -> result (A * rng).

(** [float(v)]. *)
Definition py_float (v : pyval) : result R :=
  match v with
  | PFloat x => Ok x
  | PInt n => Ok (IZR n)
  | PStr s =>
    match float_of_string s with
    | Some x => Ok x
    | None => Raise ValueError
    end
  | PNone => Raise TypeError
  end.

(** ** numpy.random.normal *)

(** How the sampler reads a scalar parameter: a number is taken as a
    double, anything else is refused. *)
Definition as_double (v : pyval) : result R :=
  match v with
  | PFloat x => Ok x
  | PInt n => Ok (IZR n)
  | PNone => Raise TypeError
  | PStr s =>
    match float_of_string s with
    | Some _ => Raise TypeError
    | None => Raise ValueError
    end
  end.

Fixpoint draws (n : nat) (loc scale : R) (g : rng) : list R * rng :=
  match n with
  | O => ([], g)
  | S n' =>
    let (z, g1) := gauss g in
    let (rest, g2) := draws n' loc scale g1 in
    ((loc + scale * z) :: rest, g2)
  end.

(** [np.random.normal(loc, scale, size)] with an [int] size. *)
Definition np_random_normal (loc scale : pyval) (size : Z) : rand (list R) :=
  fun g =>
    m <- as_double loc ;;
    s <- as_double scale ;;
    if Rlt_dec s 0 then Raise ValueError
    else if (size <? 0)%Z then Raise ValueError
    else Ok (draws (Z.to_nat size) m s g).

(** ** se_to_sd, ci_to_sd *)

Definition se_to_sd (serror : pyval) (size : Z) : result pyval :=
  r <- math_sqrt size ;;
  sdev <- py_mul serror (PFloat r) ;;
  Ok sdev.

Definition zvals : list (R * R) :=
  [ (99.9, 3.291); (99.5, 2.807); (99.0, 2.807); (95.0, 1.960);
    (90.0, 1.645); (85.0, 1.645); (80.0, 1.282) ].

Definition ci_to_sd (lowerci upperci cival : pyval) (size : Z)
  : result pyval :=
  k <- py_float cival ;;
  zscore <- dict_get zvals k ;;
  r <- math_sqrt size ;;
  d <- py_sub upperci lowerci ;;
  p <- py_mul (PFloat r) d ;;
  sdev <- py_truediv p (PFloat zscore) ;;
  Ok sdev.

(** ** datagen *)

Definition datagen (mean sdev serror lowerci upperci cival : pyval)
  (size : Z) : rand (list R) :=
  fun g =>
    '(mean, sdev) <-
      (b <- isinstance upperci (Class Cfloat) ;;
       if b : bool then
         sdev <- ci_to_sd lowerci upperci cival size ;;
         b' <- isinstance mean (NotAClass PNone) ;;
         if b' : bool then
           s <- py_add upperci lowerci ;;
           mean <- py_truediv s (PInt 2) ;;
           Ok (mean, sdev)
         else Ok (mean, sdev)
       else Ok (mean, sdev)) ;;
    sdev <-
      (b <- isinstance serror (Class Cfloat) ;;
       if b : bool then se_to_sd serror size else Ok sdev) ;;
    np_random_normal mean sdev size g.

(** ** correctdatatype *)

(** The block [correctdatatype] repeats for each of its five parameters. *)
Definition coerceToFloat (v : pyval) : result pyval :=
  b <- isinstance v (Class Cint) ;;
  if b : bool then x <- py_float v ;; Ok (PFloat x)
  else
    b' <- isinstance v (Class Cstr) ;;
    if b' : bool then x <- py_float v ;; Ok (PFloat x)
    else Ok v.

Definition correctdatatype (mean sdev serror upperci lowerci : pyval)
  : result (pyval * pyval * pyval * pyval * pyval) :=
  fmean <- coerceToFloat mean ;;
  fsdev <- coerceToFloat sdev ;;
  fserror <- coerceToFloat serror ;;
  fuci <- coerceToFloat upperci ;;
  flci <- coerceToFloat lowerci ;;
  Ok (fmean, fsdev, fserror, fuci, flci).

(** ** compounddata *)

(** [for i in range(count): out[i] = body(i)], as a list of indices. *)
Fixpoint for_range {A : Type} (idx : list nat) (body : nat -> result A)
  : result (list A) :=
  match idx with
  | [] => Ok []
  | i :: idx' =>
    x <- body i ;;
    xs <- for_range idx' body ;;
    Ok (x :: xs)
  end.

(** The same loop when the body draws random numbers. *)
Fixpoint for_range_rand {A : Type} (idx : list nat) (body : nat -> rand A)
  : rand (list A) :=
  fun g =>
    match idx with
    | [] => Ok ([], g)
    | i :: idx' =>
      '(x, g1) <- body i g ;;
      '(xs, g2) <- for_range_rand idx' body g1 ;;
      Ok (x :: xs, g2)
    end.

(** Lines 160-172: [count], when the branch taken binds it, and the five
    arrays as the branch leaves them. *)
Definition compounddata_shape (mean sdev serror upperci lowerci : pyobj)
  : option nat * (pyobj * pyobj * pyobj * pyobj * pyobj) :=
  if is_ndarray mean then
    let count := match mean with NdArray l => List.length l | Scalar _ => O end in
    let '(sdev, serror) :=
      if is_ndarray sdev then (sdev, np_empty count)
      else if is_ndarray serror then (np_empty count, serror)
      else (sdev, serror) in
    (Some count, (mean, sdev, serror, np_empty count, np_empty count))
  else if is_ndarray upperci then
    let count := match upperci with NdArray l => List.length l | Scalar _ => O end in
    (Some count,
     (np_empty count, np_empty count, np_empty count, upperci, lowerci))
  else (None, (mean, sdev, serror, upperci, lowerci)).

(** Reading a local variable: unbound when no branch assigned it. *)
Definition read_local {A : Type} (x : option A) : result A :=
  match x with
  | Some a => Ok a
  | None => Raise UnboundLocalError
  end.

Definition compounddata (mean sdev serror upperci lowerci : pyobj)
  (cival : pyval) (size : Z) : rand (list (list R)) :=
  fun g =>
    let '(count, (mean, sdev, serror, upperci, lowerci)) :=
      compounddata_shape mean sdev serror upperci lowerci in
    count <- read_local count ;;
    for_range_rand (seq 0 count)
      (fun i g =>
         m <- subscript mean i ;;
         s <- subscript sdev i ;;
         se <- subscript serror i ;;
         u <- subscript upperci i ;;
         l <- subscript lowerci i ;;
         '(flmean, flsdev, flserror, flupperci, fllowerci) <-
           correctdatatype m s se u l ;;
         datagen flmean flsdev flserror fllowerci flupperci cival size g)
      g.

End Datavis.

Arguments rand rng A : clear implicits.
Arguments draws {rng} gauss n loc scale g.
Arguments np_random_normal float_of_string {rng} gauss loc scale size g.
Arguments datagen float_of_string {rng} gauss mean sdev serror lowerci upperci
  cival size g.
Arguments for_range_rand {rng A} idx body g.
Arguments compounddata float_of_string {rng} gauss mean sdev serror upperci
  lowerci cival size g.

(** ** databinning *)

Definition Rltb (x y : R) : bool := if Rlt_dec x y then true else false.
Definition Rleb (x y : R) : bool := if Rle_dec x y then true else false.

Definition count_if (p : R -> bool) (a : list R) : nat :=
  List.length (filter p a).

(** [sa.searchsorted(v, 'left')] and [sa.searchsorted(v, 'right')] on the
    sorted sample: how many values lie below [v], strictly or not. *)
Definition searchsorted_left (a : list R) (v : R) : nat :=
  count_if (fun x => Rltb x v) a.

Definition searchsorted_right (a : list R) (v : R) : nat :=
  count_if (fun x => Rleb x v) a.

(** numpy's cumulative counts: [left] for every edge but the last, [right]
    for the last one. *)
Fixpoint search_sorted_inclusive (a v : list R) : list Z :=
  match v with
  | [] => []
  | [e] => [Z.of_nat (searchsorted_right a e)]
  | e :: v' => Z.of_nat (searchsorted_left a e) :: search_sorted_inclusive a v'
  end.

(** [np.diff]. *)
Fixpoint np_diff (c : list Z) : list Z :=
  match c with
  | x :: ((y :: _) as c') => (y - x)%Z :: np_diff c'
  | _ => []
  end.

(** [np.any(bin_edges[:-1] > bin_edges[1:])]. *)
Fixpoint any_decreasing (bins : list R) : bool :=
  match bins with
  | e0 :: ((e1 :: _) as bins') => Rltb e1 e0 || any_decreasing bins'
  | _ => false
  end.

(** [np.histogram(a, bins)] with an array of edges; the counts only. *)
Definition np_histogram (a bins : list R) : result (list Z) :=
  if any_decreasing bins then Raise ValueError
  else Ok (np_diff (search_sorted_inclusive a bins)).

(** [a[i]] on a typed array. *)
Definition index {A : Type} (a : list A) (i : nat) : result A :=
  match nth_error a i with
  | Some x => Ok x
  | None => Raise IndexError
  end.

Definition databinning (datagenerated : list (list R)) (bins_list : list R)
  : result (list (list Z)) :=
  let count := List.length datagenerated in
  for_range (seq 0 count)
    (fun i =>
       a <- index datagenerated i ;;
       np_histogram a bins_list).

(** ** pdfgen *)

Definition pdfgen (mean sdev bins_list : list R) : result (list (list R)) :=
  let count := List.length mean in
  for_range (seq 0 count)
    (fun i =>
       s <- index sdev i ;;
       m <- index mean i ;;
       Ok (map (fun x =>
                  1 / (s * sqrt (2 * PI)) * exp (- (x - m) ^ 2 / (2 * s ^ 2)))
               bins_list)).

(** ** statistics.NormalDist *)

Definition gauss_integrand (t : R) : R := exp (- (t * t)).

Lemma gauss_integrand_continuity : continuity gauss_integrand.
Proof.
  unfold gauss_integrand.
  apply (continuity_comp (fun t => - (t * t)) exp).
  - apply continuity_opp.
    apply continuity_mult; apply derivable_continuous, derivable_id.
  - apply derivable_continuous, derivable_exp.
Qed.

Lemma gauss_integrable (a b : R) (H : a <= b) :
  Riemann_integrable gauss_integrand a b.
Proof.
  apply continuity_implies_RiemannInt; [exact H |].
  intros x _. apply gauss_integrand_continuity.
Qed.

Lemma opp_nonneg (x : R) (H : ~ 0 <= x) : 0 <= - x.
Proof. lra. Qed.

(** [math.erf]: 2/sqrt(pi) times the integral of exp(-t^2) from 0 to x. *)
Definition erf (x : R) : R :=
  match Rle_dec 0 x with
  | left H => 2 / sqrt PI * RiemannInt (gauss_integrable 0 x H)
  | right H =>
    - (2 / sqrt PI * RiemannInt (gauss_integrable 0 (- x) (opp_nonneg x H)))
  end.

(** The arithmetic inside [NormalDist] tests its results against zero, so
    there a product that underflows or overflows changes what the code
    does.  A result of that arithmetic is a [float64]: a finite value, an
    infinity or NaN; a finite result is the exact one unless it leaves the
    range of binary64. *)
Inductive float64 : Type :=
| Finite (x : R)
| Infinity (negative : bool)
| NaN.

(** Half the smallest subnormal: a result of at most this magnitude rounds
    to zero. *)
Definition underflow_bound : R := / 2 ^ 1075.

(** Half-way between the largest double and 2^1024: a result of at least
    this magnitude rounds to an infinity. *)
Definition overflow_bound : R := 2 ^ 1024 - 2 ^ 970.

Definition round64 (x : R) : float64 :=
  if Rle_dec (Rabs x) underflow_bound then Finite 0
  else if Rle_dec overflow_bound (Rabs x) then Infinity (Rltb x 0)
  else Finite x.

(** [not v] on a float: [v == 0.0]. *)
Definition is_zero (v : float64) : bool :=
  match v with
  | Finite x => if Req_EM_T x 0 then true else false
  | _ => false
  end.

Definition fadd (a b : float64) : float64 :=
  match a, b with
  | NaN, _ => NaN
  | _, NaN => NaN
  | Finite x, Finite y => round64 (x + y)
  | Infinity s, Infinity s' => if Bool.eqb s s' then Infinity s else NaN
  | Infinity s, Finite _ => Infinity s
  | Finite _, Infinity s => Infinity s
  end.

Definition fsub (a b : float64) : float64 :=
  match a, b with
  | NaN, _ => NaN
  | _, NaN => NaN
  | Finite x, Finite y => round64 (x - y)
  | Infinity s, Infinity s' => if Bool.eqb s s' then NaN else Infinity s
  | Infinity s, Finite _ => Infinity s
  | Finite _, Infinity s => Infinity (negb s)
  end.

Definition fmul (a b : float64) : float64 :=
  match a, b with
  | NaN, _ => NaN
  | _, NaN => NaN
  | Finite x, Finite y => round64 (x * y)
  | Infinity s, Infinity s' => Infinity (xorb s s')
  | Infinity s, Finite y =>
    if Req_EM_T y 0 then NaN else Infinity (xorb s (Rltb y 0))
  | Finite x, Infinity s =>
    if Req_EM_T x 0 then NaN else Infinity (xorb s (Rltb x 0))
  end.

(** [a / b] on floats: a zero divisor raises. *)
Definition fdiv (a b : float64) : result float64 :=
  if is_zero b then Raise ZeroDivisionError
  else
    Ok (match a, b with
        | NaN, _ => NaN
        | _, NaN => NaN
        | Finite x, Finite y => round64 (x / y)
        | Finite _, Infinity _ => Finite 0
        | Infinity s, Finite y => Infinity (xorb s (Rltb y 0))
        | Infinity _, Infinity _ => NaN
        end).

(** [math.fabs]. *)
Definition fabs (a : float64) : float64 :=
  match a with
  | Finite x => Finite (Rabs x)
  | Infinity _ => Infinity false
  | NaN => NaN
  end.

(** [math.log(x)], [math.sqrt(x)] and [math.erf(x)] on floats. *)
Definition math_log (a : float64) : result float64 :=
  match a with
  | Finite x => if Rle_dec x 0 then Raise ValueError else Ok (round64 (ln x))
  | Infinity true => Raise ValueError
  | Infinity false => Ok (Infinity false)
  | NaN => Ok NaN
  end.

Definition math_sqrt_float (a : float64) : result float64 :=
  match a with
  | Finite x => if Rlt_dec x 0 then Raise ValueError else Ok (Finite (sqrt x))
  | Infinity true => Raise ValueError
  | Infinity false => Ok (Infinity false)
  | NaN => Ok NaN
  end.

Definition math_erf (a : float64) : float64 :=
  match a with
  | Finite x => Finite (erf x)
  | Infinity true => Finite (-1)
  | Infinity false => Finite 1
  | NaN => NaN
  end.

Definition _SQRT2 : float64 := Finite (sqrt 2.0).

(** The two fields hold the finite floats the object was built from. *)
Record NormalDist : Type := { _mu : R; _sigma : R }.

(** [NormalDist(mu, sigma)]. *)
Definition NormalDist_init (mu sigma : R) : result NormalDist :=
  if Rlt_dec sigma 0.0 then Raise StatisticsError
  else Ok {| _mu := mu; _sigma := sigma |}.

Definition variance (X : NormalDist) : float64 :=
  fmul (Finite (_sigma X)) (Finite (_sigma X)).

Definition cdf (X : NormalDist) (x : float64) : result float64 :=
  if Req_EM_T (_sigma X) 0 then Raise StatisticsError
  else
    q <- fdiv (fsub x (Finite (_mu X))) (fmul (Finite (_sigma X)) _SQRT2) ;;
    Ok (fmul (Finite 0.5) (fadd (Finite 1.0) (math_erf q))).

(** [(a1, a2) < (b1, b2)] on pairs of floats. *)
Definition pair_lt (a b : R * R) : bool :=
  if Req_EM_T (fst a) (fst b) then Rltb (snd a) (snd b)
  else Rltb (fst a) (fst b).

Definition overlap (self other : NormalDist) : result float64 :=
  let '(X, Y) :=
    if pair_lt (_sigma other, _mu other) (_sigma self, _mu self)
    then (other, self) else (self, other) in
  let X_var := variance X in
  let Y_var := variance Y in
  if is_zero X_var then Raise StatisticsError
  else if is_zero Y_var then Raise StatisticsError
  else
    let dv := fsub Y_var X_var in
    let dm := fabs (fsub (Finite (_mu Y)) (Finite (_mu X))) in
    if is_zero dv then
      q <- fdiv dm (fmul (fmul (Finite 2.0) (Finite (_sigma X))) _SQRT2) ;;
      Ok (fsub (Finite 1.0) (math_erf q))
    else
      let a := fsub (fmul (Finite (_mu X)) Y_var)
                    (fmul (Finite (_mu Y)) X_var) in
      r <- fdiv Y_var X_var ;;
      l <- math_log r ;;
      sq <- math_sqrt_float (fadd (fmul dm dm) (fmul dv l)) ;;
      let b := fmul (fmul (Finite (_sigma X)) (Finite (_sigma Y))) sq in
      x1 <- fdiv (fadd a b) dv ;;
      x2 <- fdiv (fsub a b) dv ;;
      y1 <- cdf Y x1 ;;
      c1 <- cdf X x1 ;;
      y2 <- cdf Y x2 ;;
      c2 <- cdf X x2 ;;
      Ok (fsub (Finite 1.0) (fadd (fabs (fsub y1 c1)) (fabs (fsub y2 c2)))).

(** ** String formatting *)

(** [str(i)] of a non-negative [int]. *)
Definition str (i : nat) : string := NilZero.string_of_uint (Nat.to_uint i).

(** Rounding to the nearest integer, ties to even. *)
Definition round_half_even (x : R) : Z :=
  let f := Int_part x in
  let d := frac_part x in
  if Rlt_dec d (1 / 2) then f
  else if Rlt_dec (1 / 2) d then (f + 1)%Z
  else if Z.even f then f else (f + 1)%Z.

Definition digit (n : Z) : ascii := ascii_of_nat (48 + Z.to_nat (n mod 10)).

(** The presentation type ['f'] with precision 2. *)
Definition format_f2 (x : R) : string :=
  let n := round_half_even (Rabs x * 100) in
  ((if Rlt_dec x 0 then "-" else "")
   ++ str (Z.to_nat (n / 100))
   ++ "." ++ String (digit (n / 10)) (String (digit n) ""))%string.

Definition format_f2_float64 (v : float64) : string :=
  match v with
  | Finite x => format_f2 x
  | Infinity false => "inf"
  | Infinity true => "-inf"
  | NaN => "nan"
  end.

(** ['{0:1.2%}'.format(v)]: the number times 100 in ['f'] format, then a
    percent sign. *)
Definition format_percent2 (v : float64) : string :=
  (format_f2_float64 (fmul v (Finite 100)) ++ "%")%string.

(** ** percent_overlap *)

Definition percent_overlap (mean sdev : list R) : result (list string) :=
  let count := List.length mean in
  for_range (seq 0 count)
    (fun i =>
       m <- index mean i ;;
       s <- index sdev i ;;
       X <- NormalDist_init m s ;;
       m' <- index mean i ;;
       s' <- index sdev i ;;
       Y <- NormalDist_init m' s' ;;
       o <- overlap X Y ;;
       Ok ("The overlap between dataset 1 and dataset "
           ++ str i ++ (" is " ++ format_percent2 o))%string).

(** ** The specification's own words, for comparison with the code *)

(** The normal density of the specification:
    f(x) = 1/(sd*sqrt(2*pi)) * exp(-(x-mean)^2 / (2*sd^2)). *)
Definition normal_density (mean sd x : R) : R :=
  1 / (sd * sqrt (2 * PI)) * exp (- (x - mean) ^ 2 / (2 * sd ^ 2)).

(** Bin i = [edge_i, edge_(i+1)), the last bin closed on both ends. *)
Definition in_bin (is_last : bool) (lo hi x : R) : bool :=
  Rleb lo x && (if is_last then Rleb x hi else Rltb x hi).

Fixpoint bin_counts (a edges : list R) : list Z :=
  match edges with
  | lo :: ((hi :: rest) as edges') =>
    Z.of_nat (count_if (in_bin (match rest with [] => true | _ => false end)
                               lo hi) a)
    :: bin_counts a edges'
  | _ => []
  end.

(** A draw lies inside [first edge, last edge]. *)
Definition in_range (edges : list R) (x : R) : bool :=
  match edges with
  | [] => false
  | e0 :: _ => Rleb e0 x && Rleb x (last edges e0)
  end.

Definition total (counts : list Z) : Z := fold_right Z.add 0%Z counts.

(** The shape "[-]d+.dd": an optional sign, an integer part of at least one
    digit, a point and exactly two decimals. *)
Definition is_digit (c : ascii) : bool :=
  (48 <=? nat_of_ascii c)%nat && (nat_of_ascii c <=? 57)%nat.

Fixpoint all_digits (s : string) : bool :=
  match s with
  | EmptyString => true
  | String c s' => is_digit c && all_digits s'
  end.

Definition two_decimals (p : string) : Prop :=
  exists sign ipart d1 d2,
    p = (sign ++ ipart ++ "." ++ String d1 (String d2 ""))%string
    /\ (sign = ""%string \/ sign = "-"%string)
    /\ ipart <> ""%string
    /\ all_digits ipart = true
    /\ is_digit d1 = true /\ is_digit d2 = true.

(** "The overlap between dataset 1 and dataset {i} is {pp.pp}%". *)
Definition overlap_pattern (i : nat) (s : string) : Prop :=
  exists p,
    two_decimals p
    /\ s = ("The overlap between dataset 1 and dataset " ++ str i
            ++ " is " ++ p ++ "%")%string.

(** The report on dataset [i] when the overlap is complete. *)
Definition self_overlap_report (i : nat) : string :=
  ("The overlap between dataset 1 and dataset " ++ str i
   ++ (" is " ++ "100.00%"))%string.

(** The report on dataset [i] when the overlap is not a number. *)
Definition nan_overlap_report (i : nat) : string :=
  ("The overlap between dataset 1 and dataset " ++ str i
   ++ (" is " ++ "nan%"))%string.

(** What dataset [i] comes to, by its standard deviation alone: refused
    when negative or when its square underflows to zero, not a number when
    its square overflows, complete overlap otherwise. *)
Definition self_overlap_outcome (s : R) (i : nat) : result string :=
  if Rlt_dec s 0 then Raise StatisticsError
  else if Rle_dec (s * s) underflow_bound then Raise StatisticsError
  else if Rle_dec overflow_bound (s * s) then Ok (nan_overlap_report i)
  else Ok (self_overlap_report i).

(** A standard deviation whose square is a finite, non-zero double. *)
Definition regular_sdev (s : R) : Prop :=
  0 < s /\ underflow_bound < s * s < overflow_bound.


(** The input the specification calls accepted by [coerceToFloat]: a
    number, a numeric string, or null. *)
Definition accepted (float_of_string : string -> option R) (v : pyval)
  : Prop :=
  match v with
  | PStr s => float_of_string s <> None
  | _ => True
  end.

(** The sum of two histograms over the same bins, bin by bin. *)
Definition add_counts (h1 h2 : list Z) : list Z :=
  map (fun p => (fst p + snd p)%Z) (combine h1 h2).

(** ** A concrete environment for the examples *)

(** A parser that knows two numerals. *)
Definition example_float_of_string (s : string) : option R :=
  if string_dec s "24.12" then Some 24.12
  else if string_dec s "3.87" then Some 3.87
  else None.

(** A generator whose state is a counter. *)
Definition example_gauss (g : Z) : R * Z :=
  (IZR (g mod 5) - 2, (g + 1)%Z).

(** * Properties *)

(** ** The result monad *)

Lemma bind_Ok {A B : Type} (r : result A) (k : A -> result B) (b : B) :
  bind r k = Ok b -> exists a, r = Ok a /\ k a = Ok b.
Proof. destruct r as [a | e]; cbn; [eauto | discriminate]. Qed.

Lemma bind_raises {A B : Type} (r : result A) (k : A -> result B) :
  raises r -> raises (bind r k).
Proof. intros [e ->]; exists e; reflexivity. Qed.

Lemma raises_not_Ok {A : Type} (r : result A) (a : A) :
  raises r -> r <> Ok a.
Proof. intros [e ->]; discriminate. Qed.

Ltac inv_bind H :=
  let a := fresh "a" in
  let Ha := fresh "Ha" in
  apply bind_Ok in H; destruct H as (a & Ha & H).

(** ** The z-score table *)

Lemma dict_get_In (d : list (R * R)) (k v : R) :
  dict_get d k = Ok v -> In (k, v) d.
Proof.
  induction d as [| [k' v'] d IH]; cbn; [discriminate |].
  destruct (Req_EM_T k k') as [-> | _].
  - intros [= ->]; now left.
  - intros H; right; auto.
Qed.

Lemma dict_get_found (d : list (R * R)) (k : R) :
  In k (map fst d) -> exists v, dict_get d k = Ok v.
Proof.
  induction d as [| [k' v'] d IH]; cbn; [tauto |].
  destruct (Req_EM_T k k') as [-> | Hne]; [eauto |].
  intros [Heq | Hin]; [congruence | auto].
Qed.

Lemma dict_get_missing (d : list (R * R)) (k : R) :
  ~ In k (map fst d) -> dict_get d k = Raise KeyError.
Proof.
  induction d as [| [k' v'] d IH]; cbn; [reflexivity |].
  intros Hnot. destruct (Req_EM_T k k') as [-> | _]; [tauto |].
  apply IH; tauto.
Qed.

Ltac dict_lookup :=
  unfold zvals; cbn [dict_get];
  repeat match goal with
         | |- context [Req_EM_T ?a ?b] =>
           destruct (Req_EM_T a b); [ try lra | try lra ]
         end;
  try reflexivity.

Lemma zvals_95 : dict_get zvals 95.0 = Ok 1.960.
Proof. dict_lookup. Qed.

Lemma zvals_values_nonzero (k z : R) : dict_get zvals k = Ok z -> z <> 0.
Proof.
  intros H. apply dict_get_In in H. unfold zvals in H. cbn [In] in H.
  repeat (destruct H as [[= _ <-] | H]; [lra |]). contradiction.
Qed.

(** ** The sampler *)

Section Synthesis.

Context (float_of_string : string -> option R).
Context {rng : Type} (gauss : rng -> R * rng).

Lemma draws_length (n : nat) (loc scale : R) (g : rng) :
  List.length (fst (draws gauss n loc scale g)) = n.
Proof.
  revert g; induction n as [| n IH]; intros g; cbn; [reflexivity |].
  destruct (gauss g) as [z g1]. specialize (IH g1).
  destruct (draws gauss n loc scale g1) as [rest g2]. cbn in *. congruence.
Qed.

Lemma np_random_normal_length loc scale size g sample g' :
  np_random_normal float_of_string gauss loc scale size g = Ok (sample, g') ->
  List.length sample = Z.to_nat size /\ (0 <= size)%Z.
Proof.
  unfold np_random_normal. intros H.
  inv_bind H. inv_bind H.
  destruct (Rlt_dec _ 0); [discriminate |].
  destruct (Z.ltb_spec size 0); [discriminate |].
  injection H as H. split; [| assumption].
  pose proof (draws_length (Z.to_nat size) a a0 g) as Hlen.
  rewrite H in Hlen. exact Hlen.
Qed.

Lemma np_random_normal_returns (m s : R) (size : Z) (g : rng) :
  0 <= s -> (0 <= size)%Z ->
  np_random_normal float_of_string gauss (PFloat m) (PFloat s) size g
  = Ok (draws gauss (Z.to_nat size) m s g).
Proof.
  intros Hs Hsize. unfold np_random_normal; cbn [as_double bind].
  destruct (Rlt_dec s 0); [lra |].
  destruct (Z.ltb_spec size 0); [lia | reflexivity].
Qed.

Lemma np_random_normal_no_scale loc size g :
  exists e,
    np_random_normal float_of_string gauss loc PNone size g = Raise e
    /\ ((forall s, loc <> PStr s) -> e = TypeError).
Proof.
  unfold np_random_normal.
  destruct loc as [| x | n | s]; cbn [as_double bind].
  - eexists; split; [reflexivity | reflexivity].
  - eexists; split; [reflexivity | reflexivity].
  - eexists; split; [reflexivity | reflexivity].
  - destruct (float_of_string s); cbn [bind];
      (eexists; split; [reflexivity | intros H; now destruct (H s)]).
Qed.

(** ** Loops *)


(** A loop swallows no error: if one iteration raises from every generator
    state, so does the loop. *)
Lemma for_range_rand_raises {A : Type} (idx : list nat) (body : nat -> rand rng A)
  (i : nat) :
  In i idx -> (forall g, raises (body i g)) ->
  forall g, raises (for_range_rand idx body g).
Proof.
  intros Hin Hbody. induction idx as [| j idx IH]; [destruct Hin |].
  intros g. cbn [for_range_rand].
  destruct Hin as [-> | Hin].
  - apply bind_raises, Hbody.
  - destruct (body j g) as [[x g1] | e]; cbn [bind].
    + destruct (IH Hin g1) as [e He]. rewrite He. exists e; reflexivity.
    + exists e; reflexivity.
Qed.

(** ** datagen, correctdatatype, compounddata *)

(** A call whose upper confidence bound is a [float] never returns: once the
    conversion has succeeded, line 79 asks [isinstance(mean, None)]. *)
Lemma datagen_ci_branch_raises mean sdev serror lowerci u cival size g :
  raises (datagen float_of_string gauss mean sdev serror lowerci (PFloat u)
            cival size g).
Proof.
  unfold datagen, raises; cbn [isinstance bind].
  destruct (ci_to_sd float_of_string lowerci (PFloat u) cival size) as [s | e];
    cbn [bind]; eauto.
Qed.

(** C1 (defect): called with a standard error 0.5 and the confidence
    interval [0.2, 0.4] at level 95.0, mean absent, size 100, [datagen]
    raises [TypeError]; it draws no sample of standard deviation
    serror*sqrt(size), and derives no mean (upper+lower)/2. *)
Theorem datagen_ci_and_serror_raises (g : rng) :
  datagen float_of_string gauss PNone PNone (PFloat 0.5) (PFloat 0.2)
    (PFloat 0.4) (PFloat 95.0) 100 g = Raise TypeError.
Proof.
  unfold datagen, ci_to_sd; cbn [isinstance bind py_float].
  rewrite zvals_95; cbn [bind math_sqrt Z.ltb Z.compare].
  cbn [py_sub py_mul py_binop number bind py_truediv].
  destruct (Req_EM_T 1.960 0); [lra |]. reflexivity.
Qed.

(** Without a [float] upper bound the first block leaves mean and sdev as
    they are, and [datagen] is the sampler applied to them. *)
Lemma datagen_no_ci mean sdev serror lowerci upperci cival size g :
  isinstance upperci (Class Cfloat) = Ok false ->
  isinstance serror (Class Cfloat) = Ok false ->
  datagen float_of_string gauss mean sdev serror lowerci upperci cival size g
  = np_random_normal float_of_string gauss mean sdev size g.
Proof.
  intros Hu Hs. unfold datagen. rewrite Hu, Hs. reflexivity.
Qed.

Lemma datagen_length mean sdev serror lowerci upperci cival size g sample g' :
  datagen float_of_string gauss mean sdev serror lowerci upperci cival size g
  = Ok (sample, g') ->
  List.length sample = Z.to_nat size /\ (0 <= size)%Z.
Proof.
  unfold datagen. intros H.
  inv_bind H. destruct a as [mean' sdev']. inv_bind H.
  eapply np_random_normal_length; eassumption.
Qed.

(** C5: when the upper confidence bound is no [float], the standard error is
    no [float] and no standard deviation was passed, [datagen] raises, with
    [TypeError] unless the mean is a string; and the loop of [compounddata]
    passes the failure of any dataset on to its caller. *)
Theorem datagen_missing_sdev_raises :
  (forall mean serror lowerci upperci cival size g,
      isinstance upperci (Class Cfloat) = Ok false ->
      isinstance serror (Class Cfloat) = Ok false ->
      exists e,
        datagen float_of_string gauss mean PNone serror lowerci upperci cival
          size g = Raise e
        /\ ((forall s, mean <> PStr s) -> e = TypeError))
  /\ (forall means sdevs serror upperci lowerci cival size i g,
         (i < List.length means)%nat ->
         nth_error sdevs i = Some PNone ->
         raises (compounddata float_of_string gauss (NdArray means)
                   (NdArray sdevs) serror upperci lowerci cival size g)).
Proof.
  split.
  - intros mean serror lowerci upperci cival size g Hu Hs.
    rewrite datagen_no_ci by assumption.
    apply np_random_normal_no_scale.
  - intros means sdevs serror upperci lowerci cival size i g Hi Hnone.
    unfold compounddata, compounddata_shape; cbn [is_ndarray read_local bind].
    apply for_range_rand_raises with (i := i).
    + apply in_seq. lia.
    + intros g0. unfold subscript at 2. rewrite Hnone.
      destruct (subscript (NdArray means) i) as [m | e]; cbn [bind];
        [| eexists; reflexivity].
      unfold np_empty, subscript.
      rewrite !nth_error_repeat by assumption. cbn [bind].
      unfold correctdatatype.
      destruct (coerceToFloat float_of_string m) as [fm | e]; cbn [bind];
        [| eexists; reflexivity].
      cbn [coerceToFloat isinstance bind].
      destruct (np_random_normal_no_scale fm size g0)
        as (e & He & _).
      rewrite datagen_no_ci by reflexivity. rewrite He. eexists; reflexivity.
Qed.

(** C7: a sample returned by [datagen] has [size] elements; [datagen] does
    return one when it is given a mean and a non-negative standard
    deviation and no bound or error; and [compounddata] on means
    [24.12, 24.43, 24.82], sdevs [3.87, 3.94, 3.95] and size 1000 returns
    exactly three samples of 1000 draws each. *)
Theorem datagen_sample_length :
  (forall mean sdev serror lowerci upperci cival size g sample g',
      datagen float_of_string gauss mean sdev serror lowerci upperci cival
        size g = Ok (sample, g') ->
      Z.of_nat (List.length sample) = size)
  /\ (forall m s cival size g,
         0 <= s -> (0 <= size)%Z ->
         exists sample g',
           datagen float_of_string gauss (PFloat m) (PFloat s) PNone PNone
             PNone cival size g = Ok (sample, g')
           /\ Z.of_nat (List.length sample) = size)
  /\ (forall g,
         exists s1 s2 s3 g',
           compounddata float_of_string gauss
             (NdArray [PFloat 24.12; PFloat 24.43; PFloat 24.82])
             (NdArray [PFloat 3.87; PFloat 3.94; PFloat 3.95])
             (Scalar PNone) (Scalar PNone) (Scalar PNone) (PFloat 95.0) 1000 g
           = Ok ([s1; s2; s3], g')
           /\ List.length s1 = 1000%nat /\ List.length s2 = 1000%nat
           /\ List.length s3 = 1000%nat).
Proof.
  assert (Hret : forall m s cival size g,
             0 <= s -> (0 <= size)%Z ->
             datagen float_of_string gauss (PFloat m) (PFloat s) PNone PNone
               PNone cival size g = Ok (draws gauss (Z.to_nat size) m s g)).
  { intros m s cival size g Hs Hsize.
    rewrite datagen_no_ci by reflexivity.
    now apply np_random_normal_returns. }
  split; [| split].
  - intros * H. apply datagen_length in H as [Hlen Hsize]. lia.
  - intros m s cival size g Hs Hsize.
    pose proof (draws_length (Z.to_nat size) m s g) as Hlen.
    rewrite (Hret m s cival size g Hs Hsize).
    destruct (draws gauss (Z.to_nat size) m s g) as [sample g'].
    exists sample, g'. split; [reflexivity | cbn in Hlen; lia].
  - intros g.
    unfold compounddata, compounddata_shape; cbn [is_ndarray read_local bind].
    cbn [List.length seq for_range_rand subscript nth_error np_empty repeat
         bind correctdatatype coerceToFloat isinstance].
    rewrite Hret by (lra || lia).
    pose proof (draws_length (Z.to_nat 1000) 24.12 3.87 g) as L1.
    destruct (draws gauss (Z.to_nat 1000) 24.12 3.87 g) as [s1 g1].
    cbn [bind]. rewrite Hret by (lra || lia).
    pose proof (draws_length (Z.to_nat 1000) 24.43 3.94 g1) as L2.
    destruct (draws gauss (Z.to_nat 1000) 24.43 3.94 g1) as [s2 g2].
    cbn [bind]. rewrite Hret by (lra || lia).
    pose proof (draws_length (Z.to_nat 1000) 24.82 3.95 g2) as L3.
    destruct (draws gauss (Z.to_nat 1000) 24.82 3.95 g2) as [s3 g3].
    cbn [bind].
    exists s1, s2, s3, g3. cbn [fst] in *.
    repeat split; try reflexivity; lia.
Qed.

(** C6: the table is the seven pairs below, duplicates included; for a level
    of the table [ci_to_sd] returns sqrt(size) * (upper - lower) / zscore;
    for a level outside it the lookup raises [KeyError], whatever the other
    arguments are. *)
Theorem ci_to_sd_table :
  zvals = [ (99.9, 3.291); (99.5, 2.807); (99.0, 2.807); (95.0, 1.960);
            (90.0, 1.645); (85.0, 1.645); (80.0, 1.282) ]
  /\ (forall level, In level (map fst zvals) ->
        exists zscore, In (level, zscore) zvals /\
          forall lower upper size, (0 <= size)%Z ->
            ci_to_sd float_of_string (PFloat lower) (PFloat upper)
              (PFloat level) size
            = Ok (PFloat (sqrt (IZR size) * (upper - lower) / zscore)))
  /\ (forall level lowerci upperci size, ~ In level (map fst zvals) ->
        ci_to_sd float_of_string lowerci upperci (PFloat level) size
        = Raise KeyError).
Proof.
  split; [reflexivity | split].
  - intros level Hin.
    destruct (dict_get_found zvals level Hin) as [z Hz].
    exists z. split; [now apply dict_get_In |].
    intros lower upper size Hsize.
    unfold ci_to_sd; cbn [py_float bind]. rewrite Hz; cbn [bind].
    unfold math_sqrt. destruct (Z.ltb_spec size 0); [lia |].
    cbn [bind py_sub py_mul py_binop number py_truediv].
    destruct (Req_EM_T z 0) as [Hz0 | _]; [| reflexivity].
    now apply zvals_values_nonzero in Hz.
  - intros level lowerci upperci size Hnot.
    unfold ci_to_sd; cbn [py_float bind].
    rewrite (dict_get_missing zvals level Hnot). reflexivity.
Qed.

(** C10: [coerceToFloat] is idempotent: a second application returns what
    the first returned; it succeeds on every accepted input; a [float] and
    [None] come back unchanged; and [correctdatatype], which applies it to
    its five parameters, is idempotent as well. *)
Theorem coerceToFloat_idempotent :
  (forall v r, coerceToFloat float_of_string v = Ok r ->
               coerceToFloat float_of_string r = Ok r)
  /\ (forall v, accepted float_of_string v ->
                exists r, coerceToFloat float_of_string v = Ok r)
  /\ (forall x, coerceToFloat float_of_string (PFloat x) = Ok (PFloat x))
  /\ coerceToFloat float_of_string PNone = Ok PNone
  /\ (forall mean sdev serror upperci lowerci m s se u l,
         correctdatatype float_of_string mean sdev serror upperci lowerci
         = Ok (m, s, se, u, l) ->
         correctdatatype float_of_string m s se u l = Ok (m, s, se, u, l)).
Proof.
  assert (Hidem : forall v r, coerceToFloat float_of_string v = Ok r ->
                              coerceToFloat float_of_string r = Ok r).
  { intros [| x | n | s] r; unfold coerceToFloat;
      cbn [isinstance bind py_float].
    - intros [= <-]; reflexivity.
    - intros [= <-]; reflexivity.
    - intros [= <-]; reflexivity.
    - destruct (float_of_string s); cbn [bind]; [| discriminate].
      intros [= <-]; reflexivity. }
  split; [exact Hidem |]. split; [| split; [| split]].
  - intros [| x | n | s] Hacc; unfold coerceToFloat;
      cbn [isinstance bind py_float]; eauto.
    cbn in Hacc. destruct (float_of_string s); cbn [bind]; [eauto | tauto].
  - reflexivity.
  - reflexivity.
  - intros mean sdev serror upperci lowerci m s se u l H.
    unfold correctdatatype in *.
    inv_bind H. inv_bind H. inv_bind H. inv_bind H. inv_bind H.
    injection H as <- <- <- <- <-.
    rewrite (Hidem _ _ Ha), (Hidem _ _ Ha0), (Hidem _ _ Ha1),
      (Hidem _ _ Ha2), (Hidem _ _ Ha3).
    reflexivity.
Qed.


End Synthesis.

(** ** Loops over typed arrays *)

Lemma for_range_Ok {A : Type} (idx : list nat) (body : nat -> result A)
  (h : nat -> A) :
  (forall i, In i idx -> body i = Ok (h i)) ->
  for_range idx body = Ok (map h idx).
Proof.
  induction idx as [| i idx IH]; intros Hbody; cbn; [reflexivity |].
  rewrite (Hbody i) by now left. cbn [bind].
  rewrite IH by (intros j Hj; apply Hbody; now right). reflexivity.
Qed.


Lemma nth_error_seq_lt (n k : nat) :
  (k < n)%nat -> nth_error (seq 0 n) k = Some k.
Proof.
  intros Hk. rewrite nth_error_nth' with (d := O) by now rewrite length_seq.
  now rewrite seq_nth.
Qed.

Lemma index_Some {A : Type} (a : list A) (i : nat) (x : A) :
  nth_error a i = Some x -> index a i = Ok x.
Proof. unfold index; now intros ->. Qed.

Lemma index_lt {A : Type} (a : list A) (i : nat) :
  (i < List.length a)%nat -> exists x, nth_error a i = Some x /\ index a i = Ok x.
Proof.
  intros Hi. destruct (nth_error a i) as [x |] eqn:E.
  - exists x; split; [reflexivity | now apply index_Some].
  - apply nth_error_None in E. lia.
Qed.

(** ** Histograms *)

Lemma count_if_split (p q r : R -> bool) (a : list R) :
  (forall x, r x = p x || q x) -> (forall x, p x && q x = false) ->
  count_if r a = (count_if p a + count_if q a)%nat.
Proof.
  intros Hr Hdisj. unfold count_if.
  induction a as [| x a IH]; cbn; [reflexivity |].
  rewrite (Hr x). specialize (Hdisj x).
  destruct (p x), (q x); cbn in *; try discriminate; lia.
Qed.

Lemma count_if_complement (p : R -> bool) (a : list R) :
  List.length a = (count_if p a + count_if (fun x => negb (p x)) a)%nat.
Proof.
  unfold count_if. induction a as [| x a IH]; cbn; [reflexivity |].
  destruct (p x); cbn; lia.
Qed.

Lemma Rltb_true (x y : R) : Rltb x y = true <-> x < y.
Proof. unfold Rltb; destruct (Rlt_dec x y); split; auto; discriminate. Qed.

Lemma Rltb_false (x y : R) : Rltb x y = false <-> y <= x.
Proof.
  unfold Rltb; destruct (Rlt_dec x y); split; auto; try discriminate; lra.
Qed.

Lemma Rleb_true (x y : R) : Rleb x y = true <-> x <= y.
Proof. unfold Rleb; destruct (Rle_dec x y); split; auto; discriminate. Qed.

Lemma Rleb_false (x y : R) : Rleb x y = false <-> y < x.
Proof.
  unfold Rleb; destruct (Rle_dec x y); split; auto; try discriminate; lra.
Qed.

Ltac order_bools :=
  repeat match goal with
         | |- context [Rltb ?x ?y] =>
           let E := fresh "E" in
           destruct (Rltb x y) eqn:E;
           [apply Rltb_true in E | apply Rltb_false in E]
         | |- context [Rleb ?x ?y] =>
           let E := fresh "E" in
           destruct (Rleb x y) eqn:E;
           [apply Rleb_true in E | apply Rleb_false in E]
         end;
  cbn; try reflexivity; try lra.

Lemma searchsorted_left_step (a : list R) (lo hi : R) :
  lo <= hi ->
  searchsorted_left a hi
  = (searchsorted_left a lo + count_if (in_bin false lo hi) a)%nat.
Proof.
  intros Hle. unfold searchsorted_left. apply count_if_split.
  - intros x. unfold in_bin. order_bools.
  - intros x. unfold in_bin. order_bools.
Qed.

Lemma searchsorted_right_step (a : list R) (lo hi : R) :
  lo <= hi ->
  searchsorted_right a hi
  = (searchsorted_left a lo + count_if (in_bin true lo hi) a)%nat.
Proof.
  intros Hle. unfold searchsorted_right, searchsorted_left.
  apply count_if_split.
  - intros x. unfold in_bin. order_bools.
  - intros x. unfold in_bin. order_bools.
Qed.

(** numpy's differences of cumulative counts are the counts per bin. *)
Lemma np_diff_bin_counts (a bins : list R) :
  any_decreasing bins = false ->
  np_diff (search_sorted_inclusive a bins) = bin_counts a bins.
Proof.
  induction bins as [| e0 bins IH]; [reflexivity |].
  destruct bins as [| e1 rest]; [reflexivity |].
  intros Hinc. cbn [any_decreasing] in Hinc.
  apply orb_false_iff in Hinc as [Hle Hrest].
  apply Rltb_false in Hle. specialize (IH Hrest).
  change (search_sorted_inclusive a (e0 :: e1 :: rest))
    with (Z.of_nat (searchsorted_left a e0)
          :: search_sorted_inclusive a (e1 :: rest)).
  change (bin_counts a (e0 :: e1 :: rest))
    with (Z.of_nat (count_if (in_bin (match rest with [] => true | _ => false end)
                                     e0 e1) a)
          :: bin_counts a (e1 :: rest)).
  rewrite <- IH.
  destruct rest as [| e2 rest'].
  - cbn [search_sorted_inclusive np_diff].
    rewrite (searchsorted_right_step a e0 e1 Hle). f_equal. lia.
  - cbn [search_sorted_inclusive np_diff].
    rewrite (searchsorted_left_step a e0 e1 Hle). f_equal. lia.
Qed.

Lemma bin_counts_length (a bins : list R) :
  List.length (bin_counts a bins) = (List.length bins - 1)%nat.
Proof.
  induction bins as [| e0 bins IH]; [reflexivity |].
  destruct bins as [| e1 rest]; [reflexivity |].
  change (bin_counts a (e0 :: e1 :: rest))
    with (Z.of_nat (count_if (in_bin (match rest with [] => true | _ => false end)
                                     e0 e1) a)
          :: bin_counts a (e1 :: rest)).
  cbn [List.length] in *. rewrite IH. lia.
Qed.

Lemma last_default (x : R) (l : list R) (d d' : R) :
  last (x :: l) d = last (x :: l) d'.
Proof.
  revert x; induction l as [| y l IH]; intros x; [reflexivity |].
  change (last (y :: l) d = last (y :: l) d'). apply IH.
Qed.

Lemma increasing_le_last (e0 : R) (bins : list R) :
  any_decreasing (e0 :: bins) = false -> e0 <= last (e0 :: bins) e0.
Proof.
  revert e0; induction bins as [| e1 rest IH]; intros e0 Hinc; [cbn; lra |].
  cbn [any_decreasing] in Hinc.
  apply orb_false_iff in Hinc as [Hle Hrest]. apply Rltb_false in Hle.
  specialize (IH e1 Hrest).
  change (last (e0 :: e1 :: rest) e0) with (last (e1 :: rest) e0).
  rewrite (last_default _ _ e0 e1).
  lra.
Qed.

(** The counts of all bins add up to the draws inside [first, last]. *)
Lemma bin_counts_total (a : list R) (e0 e1 : R) (rest : list R) :
  any_decreasing (e0 :: e1 :: rest) = false ->
  total (bin_counts a (e0 :: e1 :: rest))
  = Z.of_nat (count_if (in_range (e0 :: e1 :: rest)) a).
Proof.
  revert e0 e1; induction rest as [| e2 rest IH]; intros e0 e1 Hinc.
  - cbn [bin_counts total fold_right]. rewrite Z.add_0_r. reflexivity.
  - change (bin_counts a (e0 :: e1 :: e2 :: rest))
      with (Z.of_nat (count_if (in_bin false e0 e1) a)
            :: bin_counts a (e1 :: e2 :: rest)).
    cbn [total fold_right]. fold (total (bin_counts a (e1 :: e2 :: rest))).
    cbn [any_decreasing] in Hinc.
    apply orb_false_iff in Hinc as [Hle Hrest]. apply Rltb_false in Hle.
    rewrite (IH e1 e2 Hrest).
    pose proof (increasing_le_last e1 (e2 :: rest) Hrest) as Hlast.
    rewrite <- Nat2Z.inj_add. f_equal. symmetry.
    apply count_if_split.
    + intros x. unfold in_range, in_bin.
      change (last (e0 :: e1 :: e2 :: rest) e0) with (last (e1 :: e2 :: rest) e0).
      rewrite (last_default _ _ e0 e1).
      set (l := last (e1 :: e2 :: rest) e1) in *. order_bools.
    + intros x. unfold in_range, in_bin.
      set (l := last (e1 :: e2 :: rest) e1) in *. order_bools.
Qed.

(** C8: on edges in non-decreasing order [databinning] returns one histogram
    per sample; the histogram of a sample is its count per bin, bin i being
    [edge_i, edge_(i+1)) and the last bin closed; it has len(bins)-1 counts;
    and with at least one bin its counts add up to the length of the sample
    minus the draws outside [first edge, last edge]. *)
Theorem databinning_histograms (datagenerated : list (list R))
  (bins_list : list R) :
  any_decreasing bins_list = false ->
  exists yhist,
    databinning datagenerated bins_list = Ok yhist
    /\ List.length yhist = List.length datagenerated
    /\ forall i a, nth_error datagenerated i = Some a ->
         exists h,
           nth_error yhist i = Some h
           /\ h = bin_counts a bins_list
           /\ List.length h = (List.length bins_list - 1)%nat
           /\ ((2 <= List.length bins_list)%nat ->
               total h
               = (Z.of_nat (List.length a)
                  - Z.of_nat (count_if (fun x => negb (in_range bins_list x))
                                a))%Z).
Proof.
  intros Hinc.
  set (h := fun i => bin_counts (nth i datagenerated []) bins_list).
  assert (Hrun : databinning datagenerated bins_list
                 = Ok (map h (seq 0 (List.length datagenerated)))).
  { unfold databinning. apply for_range_Ok.
    intros i Hi. apply in_seq in Hi.
    destruct (index_lt datagenerated i) as (a & Ha & Hidx); [lia |].
    rewrite Hidx; cbn [bind]. unfold np_histogram. rewrite Hinc.
    rewrite np_diff_bin_counts by assumption.
    unfold h. now rewrite (nth_error_nth _ _ _ Ha). }
  eexists. split; [exact Hrun |].
  split; [now rewrite length_map, length_seq |].
  intros i a Ha.
  assert (Hi : (i < List.length datagenerated)%nat).
  { apply nth_error_Some. congruence. }
  exists (bin_counts a bins_list). split; [| split; [| split]].
  - rewrite nth_error_map, nth_error_seq_lt by assumption. cbn.
    unfold h. now rewrite (nth_error_nth _ _ _ Ha).
  - reflexivity.
  - apply bin_counts_length.
  - intros Hlen.
    destruct bins_list as [| e0 [| e1 rest]]; cbn in Hlen; try lia.
    rewrite (bin_counts_total a e0 e1 rest Hinc).
    rewrite (count_if_complement (in_range (e0 :: e1 :: rest)) a). lia.
Qed.

(** ** Densities *)

Lemma normal_density_nonneg (mean sd x : R) :
  0 < sd -> 0 <= normal_density mean sd x.
Proof.
  intros Hsd. unfold normal_density.
  assert (Hroot : 0 < sqrt (2 * PI)).
  { apply sqrt_lt_R0. pose proof PI_RGT_0. lra. }
  apply Rmult_le_pos.
  - apply Rlt_le, Rdiv_lt_0_compat; [lra |].
    now apply Rmult_lt_0_compat.
  - apply Rlt_le, exp_pos.
Qed.

(** C9: [pdfgen] returns one curve per dataset; curve i is the normal
    density of mean_i and sd_i at every bin edge, so it has one value per
    edge; and with positive standard deviations no value is negative. *)
Theorem pdfgen_curves (mean sdev bins_list : list R) :
  (List.length mean <= List.length sdev)%nat ->
  exists pdf,
    pdfgen mean sdev bins_list = Ok pdf
    /\ List.length pdf = List.length mean
    /\ (forall i m s,
           nth_error mean i = Some m -> nth_error sdev i = Some s ->
           nth_error pdf i = Some (map (normal_density m s) bins_list))
    /\ Forall (fun curve => List.length curve = List.length bins_list) pdf
    /\ (Forall (fun s => 0 < s) sdev ->
        Forall (Forall (fun y => 0 <= y)) pdf).
Proof.
  intros Hlen.
  set (h := fun i => map (normal_density (nth i mean 0) (nth i sdev 0))
                         bins_list).
  assert (Hrun : pdfgen mean sdev bins_list
                 = Ok (map h (seq 0 (List.length mean)))).
  { unfold pdfgen. apply for_range_Ok.
    intros i Hi. apply in_seq in Hi.
    destruct (index_lt sdev i) as (s & Hs & Hsi); [lia |].
    destruct (index_lt mean i) as (m & Hm & Hmi); [lia |].
    rewrite Hsi, Hmi; cbn [bind]. unfold h.
    now rewrite (nth_error_nth _ _ _ Hs), (nth_error_nth _ _ _ Hm). }
  eexists. split; [exact Hrun |].
  split; [now rewrite length_map, length_seq |].
  split; [| split].
  - intros i m s Hm Hs.
    assert (Hi : (i < List.length mean)%nat).
    { apply nth_error_Some. congruence. }
    rewrite nth_error_map, nth_error_seq_lt by assumption. cbn.
    unfold h. now rewrite (nth_error_nth _ _ _ Hs), (nth_error_nth _ _ _ Hm).
  - apply Forall_map, Forall_forall. intros i _. unfold h.
    apply length_map.
  - intros Hpos. apply Forall_map, Forall_forall. intros i Hi.
    apply in_seq in Hi. unfold h.
    apply Forall_map, Forall_forall. intros x _.
    apply normal_density_nonneg.
    rewrite Forall_forall in Hpos. apply Hpos, nth_In. lia.
Qed.

(** ** Formatting *)

Lemma string_of_uint_digits (d : Decimal.uint) :
  all_digits (NilEmpty.string_of_uint d) = true.
Proof. induction d; cbn; auto. Qed.

Lemma str_digits (i : nat) : all_digits (str i) = true.
Proof.
  unfold str, NilZero.string_of_uint.
  destruct (Nat.to_uint i) eqn:E; try reflexivity;
    rewrite <- E; apply string_of_uint_digits.
Qed.

Lemma str_nonempty (i : nat) : str i <> ""%string.
Proof.
  unfold str, NilZero.string_of_uint.
  destruct (Nat.to_uint i); cbn; discriminate.
Qed.

Lemma digit_is_digit (n : Z) : is_digit (digit n) = true.
Proof.
  unfold digit.
  pose proof (Z.mod_pos_bound n 10 eq_refl) as Hb.
  assert (Hc : (Z.to_nat (n mod 10) < 10)%nat) by lia.
  destruct (Z.to_nat (n mod 10)) as [| [| [| [| [| [| [| [| [| [| k]]]]]]]]]];
    try reflexivity; lia.
Qed.

Lemma format_f2_shape (x : R) : two_decimals (format_f2 x).
Proof.
  unfold format_f2, two_decimals.
  set (n := round_half_even (Rabs x * 100)).
  exists (if Rlt_dec x 0 then "-" else "")%string,
    (str (Z.to_nat (n / 100))), (digit (n / 10)), (digit n).
  split; [reflexivity |].
  split; [destruct (Rlt_dec x 0); auto |].
  split; [apply str_nonempty |].
  split; [apply str_digits |].
  split; apply digit_is_digit.
Qed.

Lemma Int_part_IZR (z : Z) : Int_part (IZR z) = z.
Proof.
  symmetry. apply Int_part_spec. split; [lra | apply Rle_refl].
Qed.

Lemma round_half_even_IZR (z : Z) : round_half_even (IZR z) = z.
Proof.
  unfold round_half_even, frac_part. rewrite Int_part_IZR.
  destruct (Rlt_dec (IZR z - IZR z) (1 / 2)); [reflexivity | lra].
Qed.

(** ** The range of binary64 *)

Lemma underflow_bound_range : 0 < underflow_bound < 1.
Proof.
  unfold underflow_bound.
  assert (H : 1 < 2 ^ 1075) by (apply Rlt_pow_R1; [lra | lia]).
  split.
  - apply Rinv_0_lt_compat. lra.
  - rewrite <- Rinv_1. apply Rinv_lt_contravar; lra.
Qed.

Lemma overflow_bound_large : 1024 <= overflow_bound.
Proof.
  unfold overflow_bound.
  replace (2 ^ 1024) with (2 ^ 970 * 2 ^ 54)
    by (rewrite <- pow_add; reflexivity).
  assert (H1 : 2 ^ 10 <= 2 ^ 970) by (apply Rle_pow; [lra | lia]).
  assert (H2 : 2 ^ 1 <= 2 ^ 54) by (apply Rle_pow; [lra | lia]).
  assert (E1 : 2 ^ 10 = 1024) by (simpl; lra).
  assert (E2 : 2 ^ 1 = 2) by (simpl; lra).
  nra.
Qed.

Lemma round64_regular (x : R) :
  underflow_bound < Rabs x -> Rabs x < overflow_bound ->
  round64 x = Finite x.
Proof.
  intros Hlo Hhi. unfold round64.
  destruct (Rle_dec (Rabs x) underflow_bound); [lra |].
  destruct (Rle_dec overflow_bound (Rabs x)); [lra | reflexivity].
Qed.

Lemma round64_0 : round64 0 = Finite 0.
Proof.
  unfold round64. rewrite Rabs_R0. pose proof underflow_bound_range.
  destruct (Rle_dec 0 underflow_bound); [reflexivity | lra].
Qed.

Lemma round64_not_zero (x : R) :
  underflow_bound < Rabs x -> is_zero (round64 x) = false.
Proof.
  intros Hlo. pose proof underflow_bound_range as Hu. unfold round64.
  destruct (Rle_dec (Rabs x) underflow_bound); [lra |].
  destruct (Rle_dec overflow_bound (Rabs x)); [reflexivity |].
  cbn [is_zero]. destruct (Req_EM_T x 0) as [-> | _]; [| reflexivity].
  rewrite Rabs_R0 in Hlo. lra.
Qed.

Lemma sqrt2_bounds : 1 < sqrt 2.0 < 2.
Proof.
  split.
  - rewrite <- sqrt_1 at 1. apply sqrt_lt_1_alt. lra.
  - assert (E : sqrt (2 * 2) = 2) by (apply sqrt_square; lra).
    assert (L : sqrt 2.0 < sqrt (2 * 2)) by (apply sqrt_lt_1_alt; lra).
    lra.
Qed.

Lemma regular_sdev_range (s : R) : 1 <= s <= 30 -> regular_sdev s.
Proof.
  intros Hs. pose proof underflow_bound_range.
  pose proof overflow_bound_large. unfold regular_sdev. nra.
Qed.

Lemma format_percent2_one : format_percent2 (Finite 1.0) = "100.00%"%string.
Proof.
  unfold format_percent2. cbn [fmul].
  pose proof underflow_bound_range. pose proof overflow_bound_large.
  rewrite round64_regular
    by (rewrite Rabs_pos_eq by lra; lra).
  cbn [format_f2_float64]. unfold format_f2.
  replace (Rabs (1.0 * 100) * 100) with (IZR 10000)
    by (rewrite Rabs_pos_eq; lra).
  rewrite round_half_even_IZR.
  destruct (Rlt_dec (1.0 * 100) 0); [lra |].
  reflexivity.
Qed.

(** ** Overlap *)

Lemma erf_0 : erf 0 = 0.
Proof.
  unfold erf. destruct (Rle_dec 0 0) as [H | H].
  - rewrite RiemannInt_P9. lra.
  - exfalso; apply H; apply Rle_refl.
Qed.

Lemma fdiv_NaN_l (b : float64) : is_zero b = false -> fdiv NaN b = Ok NaN.
Proof. intros H. unfold fdiv. now rewrite H. Qed.

Lemma fadd_NaN_r (a : float64) : fadd a NaN = NaN.
Proof. now destruct a. Qed.

Lemma fsub_NaN_r (a : float64) : fsub a NaN = NaN.
Proof. now destruct a. Qed.

Lemma fmul_NaN_r (a : float64) : fmul a NaN = NaN.
Proof. now destruct a. Qed.

Lemma fmul_Infinity_cancel (m : R) (neg : bool) :
  fsub (fmul (Finite m) (Infinity neg)) (fmul (Finite m) (Infinity neg)) = NaN.
Proof.
  cbn [fmul]. destruct (Req_EM_T m 0); [reflexivity |].
  cbn [fsub]. now rewrite Bool.eqb_reflx.
Qed.

(** The square of a standard deviation, as binary64 has it. *)
Lemma square_cases (s : R) :
  fmul (Finite s) (Finite s)
  = if Rle_dec (s * s) underflow_bound then Finite 0
    else if Rle_dec overflow_bound (s * s) then Infinity false
    else Finite (s * s).
Proof.
  cbn [fmul]. unfold round64.
  rewrite (Rabs_pos_eq (s * s)) by nra.
  destruct (Rle_dec (s * s) underflow_bound); [reflexivity |].
  destruct (Rle_dec overflow_bound (s * s)); [| reflexivity].
  f_equal. apply Rltb_false. nra.
Qed.

Lemma cdf_NaN (m s : R) :
  underflow_bound < s -> cdf {| _mu := m; _sigma := s |} NaN = Ok NaN.
Proof.
  intros Hs. pose proof underflow_bound_range as Hu.
  pose proof sqrt2_bounds as Hr.
  unfold cdf; cbn [_mu _sigma fsub].
  destruct (Req_EM_T s 0); [lra |].
  rewrite fdiv_NaN_l; [reflexivity |].
  unfold _SQRT2; cbn [fmul]. apply round64_not_zero.
  rewrite Rabs_pos_eq by nra. nra.
Qed.

(** The overlap of a distribution with itself, by its standard deviation:
    refused when the variance underflows to zero, NaN when it overflows,
    and 1 otherwise. *)
Lemma overlap_same (m s : R) :
  ~ s < 0 ->
  overlap {| _mu := m; _sigma := s |} {| _mu := m; _sigma := s |}
  = if Rle_dec (s * s) underflow_bound then Raise StatisticsError
    else if Rle_dec overflow_bound (s * s) then Ok NaN
    else Ok (Finite 1.0).
Proof.
  intros Hs.
  pose proof underflow_bound_range as Hu.
  pose proof overflow_bound_large as Ho.
  pose proof sqrt2_bounds as Hr.
  unfold overlap, pair_lt; cbn [fst snd _mu _sigma].
  destruct (Req_EM_T s s) as [_ | Hne]; [| contradiction].
  replace (Rltb m m) with false by (symmetry; apply Rltb_false, Rle_refl).
  unfold variance; cbn [_mu _sigma]. rewrite !square_cases.
  destruct (Rle_dec (s * s) underflow_bound) as [Hunder | Hover0].
  - cbn [is_zero]. destruct (Req_EM_T 0 0); [reflexivity | contradiction].
  - destruct (Rle_dec overflow_bound (s * s)) as [Hover | Hreg].
    + cbn [is_zero fsub Bool.eqb].
      rewrite fmul_Infinity_cancel.
      unfold fdiv at 1. cbn [is_zero bind math_log].
      rewrite !fmul_NaN_r, !fadd_NaN_r. cbn [math_sqrt_float bind].
      rewrite !fmul_NaN_r. cbn [fadd fsub].
      unfold fdiv at 1 2. cbn [is_zero bind].
      assert (Hbig : underflow_bound < s) by nra.
      rewrite !(cdf_NaN m s Hbig). cbn [bind fsub fabs fadd]. reflexivity.
    + assert (Hnz : s * s <> 0) by lra.
      cbn [is_zero]. destruct (Req_EM_T (s * s) 0); [contradiction |].
      cbn [fsub].
      replace (s * s - s * s) with 0 by ring.
      replace (m - m) with 0 by ring.
      rewrite round64_0. cbn [is_zero fabs].
      destruct (Req_EM_T 0 0) as [_ | Hne]; [| contradiction].
      rewrite Rabs_R0.
      assert (Hpos : 0 < s) by nra.
      assert (H2s : round64 (2.0 * s) = Finite (2.0 * s)).
      { apply round64_regular; rewrite Rabs_pos_eq by lra.
        - destruct (Rle_dec 1 s); nra.
        - destruct (Rle_dec s 4); nra. }
      unfold _SQRT2.
      change (fmul (Finite 2.0) (Finite s)) with (round64 (2.0 * s)).
      rewrite H2s. cbn [fmul].
      assert (Hd : round64 (2.0 * s * sqrt 2.0) = Finite (2.0 * s * sqrt 2.0)).
      { apply round64_regular; rewrite Rabs_pos_eq by nra.
        - destruct (Rle_dec 1 s); nra.
        - destruct (Rle_dec s 4); nra. }
      rewrite Hd. unfold fdiv; cbn [is_zero].
      destruct (Req_EM_T (2.0 * s * sqrt 2.0) 0); [nra |].
      cbn [bind]. unfold Rdiv at 1. rewrite Rmult_0_l, round64_0.
      cbn [math_erf fsub]. rewrite erf_0.
      rewrite round64_regular
        by (rewrite Rabs_pos_eq by lra; lra).
      f_equal. f_equal. lra.
Qed.

Lemma for_range_ext {A : Type} (idx : list nat) (body body' : nat -> result A) :
  (forall i, In i idx -> body i = body' i) ->
  for_range idx body = for_range idx body'.
Proof.
  induction idx as [| i idx IH]; intros H; [reflexivity |].
  cbn [for_range]. rewrite (H i) by now left.
  rewrite IH by (intros j Hj; apply H; now right). reflexivity.
Qed.

(** What one iteration of [percent_overlap] comes to, for indices within
    both arrays. *)
Lemma percent_overlap_body (m s : R) (i : nat) :
  (X <- NormalDist_init m s ;;
   Y <- NormalDist_init m s ;;
   o <- overlap X Y ;;
   Ok ("The overlap between dataset 1 and dataset "
       ++ str i ++ (" is " ++ format_percent2 o))%string)
  = self_overlap_outcome s i.
Proof.
  unfold NormalDist_init, self_overlap_outcome.
  destruct (Rlt_dec s 0.0) as [Hneg | Hnn]; destruct (Rlt_dec s 0);
    try lra; cbn [bind]; [reflexivity |].
  rewrite overlap_same by assumption.
  destruct (Rle_dec (s * s) underflow_bound); [reflexivity |].
  destruct (Rle_dec overflow_bound (s * s)); cbn [bind].
  - reflexivity.
  - now rewrite format_percent2_one.
Qed.

Lemma percent_overlap_unfold (mean sdev : list R) :
  percent_overlap mean sdev
  = for_range (seq 0 (List.length mean))
      (fun i =>
         m <- index mean i ;;
         s <- index sdev i ;;
         self_overlap_outcome s i).
Proof.
  unfold percent_overlap. apply for_range_ext. intros i _.
  destruct (index mean i) as [m |]; cbn [bind]; [| reflexivity].
  destruct (index sdev i) as [s |]; cbn [bind]; [| reflexivity].
  apply percent_overlap_body.
Qed.

Lemma self_overlap_outcome_regular (s : R) (i : nat) :
  regular_sdev s -> self_overlap_outcome s i = Ok (self_overlap_report i).
Proof.
  intros (Hpos & Hlo & Hhi). unfold self_overlap_outcome.
  destruct (Rlt_dec s 0); [lra |].
  destruct (Rle_dec (s * s) underflow_bound); [lra |].
  destruct (Rle_dec overflow_bound (s * s)); [lra | reflexivity].
Qed.

(** With standard deviations whose squares stay within the range of
    binary64 every entry reports 100.00%. *)
Lemma percent_overlap_regular (mean sdev : list R) :
  (List.length mean <= List.length sdev)%nat ->
  Forall regular_sdev sdev ->
  percent_overlap mean sdev
  = Ok (map self_overlap_report (seq 0 (List.length mean))).
Proof.
  intros Hlen Hreg. rewrite percent_overlap_unfold. apply for_range_Ok.
  intros i Hi. apply in_seq in Hi.
  destruct (index_lt mean i) as (m & Hm & Hmi); [lia |].
  destruct (index_lt sdev i) as (s & Hs & Hsi); [lia |].
  rewrite Hmi, Hsi; cbn [bind].
  apply self_overlap_outcome_regular.
  rewrite Forall_forall in Hreg. eapply Hreg, nth_error_In, Hs.
Qed.


(** C2 (defect): for the three datasets of the specification
    [percent_overlap] returns three strings, the first of them about
    dataset 0, where the claim (and the docstring: the overlap between the
    1st and the other data sets) has count-1 = 2 strings, for i = 1 and 2. *)
Theorem percent_overlap_reports_first_dataset :
  percent_overlap [24.12; 24.43; 24.82] [3.87; 3.94; 3.95]
  = Ok [ "The overlap between dataset 1 and dataset 0 is 100.00%"%string;
         "The overlap between dataset 1 and dataset 1 is 100.00%"%string;
         "The overlap between dataset 1 and dataset 2 is 100.00%"%string ].
Proof.
  rewrite percent_overlap_regular.
  - reflexivity.
  - cbn; lia.
  - repeat constructor; apply regular_sdev_range; lra.
Qed.



(** * The properties at concrete inputs *)




Lemma datagen_missing_sdev_raises_witness :
  isinstance PNone (Class Cfloat) = Ok false
  /\ exists e,
      datagen example_float_of_string example_gauss (PFloat 24.12) PNone
        PNone PNone PNone (PFloat 95.0) 100 0%Z = Raise e
      /\ ((forall s, PFloat 24.12 <> PStr s) -> e = TypeError).
Proof.
  split; [reflexivity |].
  exact (proj1 (datagen_missing_sdev_raises example_float_of_string
                  example_gauss)
           (PFloat 24.12) PNone PNone PNone (PFloat 95.0) 100%Z 0%Z
           eq_refl eq_refl).
Defined.

Lemma level_95_in_table : In 95.0 (map fst zvals).
Proof. cbn. right; right; right; left; reflexivity. Defined.

Lemma ci_to_sd_table_witness :
  In 95.0 (map fst zvals)
  /\ exists zscore,
      In (95.0, zscore) zvals
      /\ forall lower upper size, (0 <= size)%Z ->
           ci_to_sd example_float_of_string (PFloat lower) (PFloat upper)
             (PFloat 95.0) size
           = Ok (PFloat (sqrt (IZR size) * (upper - lower) / zscore)).
Proof.
  split; [exact level_95_in_table |].
  exact (proj1 (proj2 (ci_to_sd_table example_float_of_string))
           95.0 level_95_in_table).
Defined.

Lemma datagen_sample_length_witness :
  0 <= 3.87 /\ (0 <= 1000)%Z
  /\ exists sample g',
      datagen example_float_of_string example_gauss (PFloat 24.12)
        (PFloat 3.87) PNone PNone PNone (PFloat 95.0) 1000 0%Z
      = Ok (sample, g')
      /\ Z.of_nat (List.length sample) = 1000%Z.
Proof.
  assert (Hs : 0 <= 3.87) by lra.
  assert (Hsize : (0 <= 1000)%Z) by lia.
  split; [exact Hs | split; [exact Hsize |]].
  exact (proj1 (proj2 (datagen_sample_length example_float_of_string
                         example_gauss))
           24.12 3.87 (PFloat 95.0) 1000%Z 0%Z Hs Hsize).
Defined.

Lemma edges_10_20_40 : any_decreasing [10; 20; 40] = false.
Proof.
  cbn [any_decreasing].
  rewrite (proj2 (Rltb_false 20 10)) by lra.
  rewrite (proj2 (Rltb_false 40 20)) by lra.
  reflexivity.
Defined.

Lemma databinning_histograms_witness :
  any_decreasing [10; 20; 40] = false
  /\ exists yhist,
      databinning [[11; 25; 50]; [10; 40]] [10; 20; 40] = Ok yhist
      /\ List.length yhist = 2%nat
      /\ forall i a, nth_error [[11; 25; 50]; [10; 40]] i = Some a ->
           exists h,
             nth_error yhist i = Some h
             /\ h = bin_counts a [10; 20; 40]
             /\ List.length h = 2%nat
             /\ ((2 <= 3)%nat ->
                 total h
                 = (Z.of_nat (List.length a)
                    - Z.of_nat (count_if
                                  (fun x => negb (in_range [10; 20; 40]%R x))
                                  a))%Z).
Proof.
  split; [exact edges_10_20_40 |].
  exact (databinning_histograms [[11; 25; 50]; [10; 40]] [10; 20; 40]
           edges_10_20_40).
Defined.

Lemma pdfgen_curves_witness :
  (List.length [24.12; 24.43; 24.82]%R <= List.length [3.87; 3.94; 3.95]%R)%nat
  /\ exists pdf,
      pdfgen [24.12; 24.43; 24.82] [3.87; 3.94; 3.95] [10; 25; 40] = Ok pdf
      /\ List.length pdf = 3%nat
      /\ (forall i m s,
             nth_error [24.12; 24.43; 24.82] i = Some m ->
             nth_error [3.87; 3.94; 3.95] i = Some s ->
             nth_error pdf i = Some (map (normal_density m s) [10; 25; 40]))
      /\ Forall (fun curve => List.length curve = 3%nat) pdf
      /\ (Forall (fun s => 0 < s) [3.87; 3.94; 3.95] ->
          Forall (Forall (fun y => 0 <= y)) pdf).
Proof.
  assert (Hlen : (List.length [24.12; 24.43; 24.82]%R
                  <= List.length [3.87; 3.94; 3.95]%R)%nat) by (cbn; lia).
  split; [exact Hlen |].
  exact (pdfgen_curves [24.12; 24.43; 24.82] [3.87; 3.94; 3.95] [10; 25; 40]
           Hlen).
Defined.

Lemma coerceToFloat_idempotent_witness :
  coerceToFloat example_float_of_string (PStr "24.12") = Ok (PFloat 24.12)
  /\ coerceToFloat example_float_of_string (PFloat 24.12) = Ok (PFloat 24.12).
Proof.
  assert (H : coerceToFloat example_float_of_string (PStr "24.12")
              = Ok (PFloat 24.12)) by reflexivity.
  split; [exact H |].
  exact (proj1 (coerceToFloat_idempotent example_float_of_string)
           (PStr "24.12") (PFloat 24.12) H).
Defined.

(** * Further properties of the module *)

(** ** se_to_sd and ci_to_sd *)

Lemma zvals_values_positive (k z : R) : dict_get zvals k = Ok z -> 0 < z.
Proof.
  intros H. apply dict_get_In in H. unfold zvals in H. cbn [In] in H.
  repeat (destruct H as [[= _ <-] | H]; [lra |]). contradiction.
Qed.

(** A higher level of the table never has a smaller z-score. *)
Lemma zvals_monotone (k1 k2 z1 z2 : R) :
  dict_get zvals k1 = Ok z1 -> dict_get zvals k2 = Ok z2 ->
  k1 <= k2 -> z1 <= z2.
Proof.
  intros H1 H2 Hle.
  apply dict_get_In in H1. apply dict_get_In in H2.
  unfold zvals in H1, H2. cbn [In] in H1, H2.
  repeat (destruct H1 as [[= <- <-] | H1]; [| try contradiction]);
    repeat (destruct H2 as [[= <- <-] | H2]; [| try contradiction]);
    lra.
Qed.

Lemma sqrt_IZR_nonneg (size : Z) : 0 <= sqrt (IZR size).
Proof. apply sqrt_pos. Qed.

Lemma sqrt_IZR_pos (size : Z) : (0 < size)%Z -> 0 < sqrt (IZR size).
Proof. intros H. apply sqrt_lt_R0. now apply IZR_lt. Qed.

Lemma se_to_sd_number (serror : pyval) (x : R) (size : Z) :
  number serror = Some x -> (0 <= size)%Z ->
  se_to_sd serror size = Ok (PFloat (x * sqrt (IZR size))).
Proof.
  intros Hx Hsize. unfold se_to_sd, math_sqrt.
  destruct (Z.ltb_spec size 0); [lia |]. cbn [bind].
  destruct serror; cbn in Hx; try discriminate;
    injection Hx as <-; reflexivity.
Qed.

(** X1: [se_to_sd] returns the float serror*sqrt(size) for a numeric
    standard error (an [int] is coerced) and a size that is not negative;
    a negative size raises [ValueError] whatever the standard error is; a
    standard error that is no number raises [TypeError]. *)
Theorem se_to_sd_behaviour :
  (forall serror x size,
      number serror = Some x -> (0 <= size)%Z ->
      se_to_sd serror size = Ok (PFloat (x * sqrt (IZR size))))
  /\ (forall serror size,
         (size < 0)%Z -> se_to_sd serror size = Raise ValueError)
  /\ (forall serror size,
         number serror = None -> (0 <= size)%Z ->
         se_to_sd serror size = Raise TypeError).
Proof.
  split; [| split].
  - apply se_to_sd_number.
  - intros serror size Hsize. unfold se_to_sd, math_sqrt.
    destruct (Z.ltb_spec size 0); [reflexivity | lia].
  - intros serror size Hx Hsize. unfold se_to_sd, math_sqrt.
    destruct (Z.ltb_spec size 0); [lia |]. cbn [bind].
    destruct serror; cbn in Hx; try discriminate; reflexivity.
Qed.

Section Conversions.

Context (float_of_string : string -> option R).

Lemma ci_to_sd_floats (lower upper level z : R) (size : Z) :
  dict_get zvals level = Ok z -> (0 <= size)%Z ->
  ci_to_sd float_of_string (PFloat lower) (PFloat upper) (PFloat level) size
  = Ok (PFloat (sqrt (IZR size) * (upper - lower) / z)).
Proof.
  intros Hz Hsize. unfold ci_to_sd; cbn [py_float bind]. rewrite Hz; cbn [bind].
  unfold math_sqrt. destruct (Z.ltb_spec size 0); [lia |].
  cbn [bind py_sub py_mul py_binop number py_truediv].
  destruct (Req_EM_T z 0) as [Hz0 | _]; [| reflexivity].
  now apply zvals_values_nonzero in Hz.
Qed.

Lemma ci_to_sd_floats_inv (lower upper level : R) (size : Z) (v : pyval) :
  ci_to_sd float_of_string (PFloat lower) (PFloat upper) (PFloat level) size
  = Ok v ->
  exists z,
    dict_get zvals level = Ok z /\ (0 <= size)%Z
    /\ v = PFloat (sqrt (IZR size) * (upper - lower) / z).
Proof.
  intros H.
  destruct (dict_get zvals level) as [z | e] eqn:Hz.
  - destruct (Z.ltb_spec size 0) as [Hneg | Hnonneg].
    + unfold ci_to_sd in H; cbn [py_float bind] in H.
      rewrite Hz in H; cbn [bind] in H. unfold math_sqrt in H.
      destruct (Z.ltb_spec size 0); [discriminate | lia].
    + exists z. split; [reflexivity | split; [assumption |]].
      rewrite (ci_to_sd_floats lower upper level z size Hz Hnonneg) in H.
      congruence.
  - unfold ci_to_sd in H; cbn [py_float bind] in H.
    rewrite Hz in H. discriminate.
Qed.

(** X2: [ci_to_sd] reports its failures in the order it evaluates: a level
    that [float()] refuses ([None], a non-numeric string) fails before the
    table is consulted; for a level of the table a negative size raises
    [ValueError] whatever the bounds are; and only then a bound that is no
    number raises [TypeError]. *)
Theorem ci_to_sd_error_order :
  (forall lowerci upperci size,
      ci_to_sd float_of_string lowerci upperci PNone size = Raise TypeError)
  /\ (forall lowerci upperci s size,
         float_of_string s = None ->
         ci_to_sd float_of_string lowerci upperci (PStr s) size
         = Raise ValueError)
  /\ (forall lowerci upperci level size,
         In level (map fst zvals) -> (size < 0)%Z ->
         ci_to_sd float_of_string lowerci upperci (PFloat level) size
         = Raise ValueError)
  /\ (forall lowerci upperci level size,
         In level (map fst zvals) -> (0 <= size)%Z ->
         number lowerci = None \/ number upperci = None ->
         ci_to_sd float_of_string lowerci upperci (PFloat level) size
         = Raise TypeError).
Proof.
  split; [reflexivity | split; [| split]].
  - intros lowerci upperci s size Hs. unfold ci_to_sd; cbn [py_float].
    rewrite Hs. reflexivity.
  - intros lowerci upperci level size Hin Hsize.
    destruct (dict_get_found zvals level Hin) as [z Hz].
    unfold ci_to_sd; cbn [py_float bind]. rewrite Hz; cbn [bind].
    unfold math_sqrt. destruct (Z.ltb_spec size 0); [reflexivity | lia].
  - intros lowerci upperci level size Hin Hsize Hbad.
    destruct (dict_get_found zvals level Hin) as [z Hz].
    unfold ci_to_sd; cbn [py_float bind]. rewrite Hz; cbn [bind].
    unfold math_sqrt. destruct (Z.ltb_spec size 0); [lia |]. cbn [bind].
    destruct Hbad as [Hbad | Hbad];
      destruct lowerci, upperci; cbn in Hbad; try discriminate; reflexivity.
Qed.

(** X3: on float bounds, exchanging the bounds negates the result of
    [ci_to_sd]; the result is not negative when lower <= upper, and it is
    negative when the bounds are reversed and the size is positive. *)
Theorem ci_to_sd_bounds_order (lower upper level s : R) (size : Z) :
  ci_to_sd float_of_string (PFloat lower) (PFloat upper) (PFloat level) size
  = Ok (PFloat s) ->
  ci_to_sd float_of_string (PFloat upper) (PFloat lower) (PFloat level) size
  = Ok (PFloat (- s))
  /\ (lower <= upper -> 0 <= s)
  /\ (upper < lower -> (0 < size)%Z -> s < 0).
Proof.
  intros H. apply ci_to_sd_floats_inv in H as (z & Hz & Hsize & Hs).
  injection Hs as ->.
  pose proof (zvals_values_positive level z Hz) as Hzpos.
  pose proof (sqrt_IZR_nonneg size) as Hroot.
  split; [| split].
  - rewrite (ci_to_sd_floats upper lower level z size Hz Hsize).
    do 2 f_equal. field. lra.
  - intros Hle. apply Rmult_le_pos; [| apply Rlt_le, Rinv_0_lt_compat; lra].
    apply Rmult_le_pos; lra.
  - intros Hlt Hpos. apply sqrt_IZR_pos in Hpos.
    unfold Rdiv.
    apply Ropp_lt_cancel. rewrite Ropp_0.
    replace (- (sqrt (IZR size) * (upper - lower) * / z))
      with (sqrt (IZR size) * (lower - upper) * / z) by ring.
    apply Rmult_lt_0_compat; [| apply Rinv_0_lt_compat; lra].
    apply Rmult_lt_0_compat; lra.
Qed.


(** X5: for a proper interval the standard deviation does not grow with the
    confidence level, and the levels that share a z-score (99.5 with 99.0,
    90.0 with 85.0) give the same standard deviation. *)
Theorem ci_to_sd_level_monotone :
  (forall lower upper l1 l2 s1 s2 size,
      lower <= upper -> l1 <= l2 ->
      ci_to_sd float_of_string (PFloat lower) (PFloat upper) (PFloat l1) size
      = Ok (PFloat s1) ->
      ci_to_sd float_of_string (PFloat lower) (PFloat upper) (PFloat l2) size
      = Ok (PFloat s2) ->
      s2 <= s1)
  /\ (forall lowerci upperci size,
         ci_to_sd float_of_string lowerci upperci (PFloat 99.5) size
         = ci_to_sd float_of_string lowerci upperci (PFloat 99.0) size
         /\ ci_to_sd float_of_string lowerci upperci (PFloat 90.0) size
            = ci_to_sd float_of_string lowerci upperci (PFloat 85.0) size).
Proof.
  split.
  - intros lower upper l1 l2 s1 s2 size Hb Hl H1 H2.
    apply ci_to_sd_floats_inv in H1 as (z1 & Hz1 & Hsize & E1).
    apply ci_to_sd_floats_inv in H2 as (z2 & Hz2 & _ & E2).
    injection E1 as ->. injection E2 as ->.
    pose proof (zvals_values_positive _ _ Hz1) as P1.
    pose proof (zvals_values_positive _ _ Hz2) as P2.
    pose proof (zvals_monotone _ _ _ _ Hz1 Hz2 Hl) as Hz.
    pose proof (sqrt_IZR_nonneg size) as Hroot.
    unfold Rdiv. apply Rmult_le_compat_l; [apply Rmult_le_pos; lra |].
    apply Rinv_le_contravar; assumption.
  - intros lowerci upperci size.
    assert (E1 : dict_get zvals 99.5 = Ok 2.807) by dict_lookup.
    assert (E2 : dict_get zvals 99.0 = Ok 2.807) by dict_lookup.
    assert (E3 : dict_get zvals 90.0 = Ok 1.645) by dict_lookup.
    assert (E4 : dict_get zvals 85.0 = Ok 1.645) by dict_lookup.
    unfold ci_to_sd; cbn [py_float bind]. rewrite E1, E2, E3, E4.
    split; reflexivity.
Qed.

End Conversions.

(** ** datagen and correctdatatype *)

Section Generation.

Context (float_of_string : string -> option R).
Context {rng : Type} (gauss : rng -> R * rng).

Lemma datagen_skips_ci mean sdev serror lowerci upperci cival size g :
  isinstance upperci (Class Cfloat) = Ok false ->
  datagen float_of_string gauss mean sdev serror lowerci upperci cival size g
  = (sdev' <- (b <- isinstance serror (Class Cfloat) ;;
               if b : bool then se_to_sd serror size else Ok sdev) ;;
     np_random_normal float_of_string gauss mean sdev' size g).
Proof. intros Hu. unfold datagen. rewrite Hu. reflexivity. Qed.

(** X6: a float standard error takes the place of whatever standard
    deviation was passed: when the upper bound is no float and the size is
    not negative, [datagen] samples with serror*sqrt(size), and its result
    does not depend on sdev, lowerci or cival. *)
Theorem datagen_serror_overrides mean sdev se lowerci upperci cival size g :
  isinstance upperci (Class Cfloat) = Ok false ->
  (0 <= size)%Z ->
  datagen float_of_string gauss mean sdev (PFloat se) lowerci upperci cival
    size g
  = np_random_normal float_of_string gauss mean
      (PFloat (se * sqrt (IZR size))) size g
  /\ forall sdev' lowerci' cival',
      datagen float_of_string gauss mean sdev (PFloat se) lowerci upperci
        cival size g
      = datagen float_of_string gauss mean sdev' (PFloat se) lowerci' upperci
          cival' size g.
Proof.
  intros Hu Hsize.
  assert (E : forall sd lo cv,
             datagen float_of_string gauss mean sd (PFloat se) lo upperci cv
               size g
             = np_random_normal float_of_string gauss mean
                 (PFloat (se * sqrt (IZR size))) size g).
  { intros sd lo cv. rewrite datagen_skips_ci by assumption.
    cbn [isinstance bind].
    rewrite (se_to_sd_number (PFloat se) se size eq_refl Hsize).
    reflexivity. }
  split; [apply E |]. intros sdev' lowerci' cival'. now rewrite !E.
Qed.

(** X7: when the upper bound is no float, [datagen] never looks at the
    bounds or at the level: integer or absent bounds are passed over, and
    the result is the same whatever lowerci, cival and the (non-float)
    upperci are. *)
Theorem datagen_ignores_interval mean sdev serror lowerci upperci cival
  lowerci' upperci' cival' size g :
  isinstance upperci (Class Cfloat) = Ok false ->
  isinstance upperci' (Class Cfloat) = Ok false ->
  datagen float_of_string gauss mean sdev serror lowerci upperci cival size g
  = datagen float_of_string gauss mean sdev serror lowerci' upperci' cival'
      size g.
Proof.
  intros Hu Hu'. now rewrite !datagen_skips_ci by assumption.
Qed.

(** X8: [datagen] refuses a negative spread and a negative size with
    [ValueError]: a negative standard deviation, a negative standard error
    with a positive size, or a negative size with a valid deviation. *)
Theorem datagen_negative_raises :
  (forall mean m sdev s serror lowerci upperci cival size g,
      isinstance upperci (Class Cfloat) = Ok false ->
      isinstance serror (Class Cfloat) = Ok false ->
      number mean = Some m -> number sdev = Some s -> s < 0 ->
      datagen float_of_string gauss mean sdev serror lowerci upperci cival
        size g = Raise ValueError)
  /\ (forall mean m sdev se lowerci upperci cival size g,
         isinstance upperci (Class Cfloat) = Ok false ->
         number mean = Some m -> se < 0 -> (0 < size)%Z ->
         datagen float_of_string gauss mean sdev (PFloat se) lowerci upperci
           cival size g = Raise ValueError)
  /\ (forall mean m sdev s serror lowerci upperci cival size g,
         isinstance upperci (Class Cfloat) = Ok false ->
         isinstance serror (Class Cfloat) = Ok false ->
         number mean = Some m -> number sdev = Some s -> (size < 0)%Z ->
         datagen float_of_string gauss mean sdev serror lowerci upperci cival
           size g = Raise ValueError).
Proof.
  assert (Hnum : forall v x, number v = Some x -> as_double float_of_string v = Ok x).
  { intros [| y | n | str] x H; cbn in H; try discriminate;
      injection H as <-; reflexivity. }
  split; [| split].
  - intros mean m sdev s serror lowerci upperci cival size g Hu Hse Hm Hs Hneg.
    rewrite datagen_no_ci by assumption. unfold np_random_normal.
    rewrite (Hnum _ _ Hm), (Hnum _ _ Hs); cbn [bind].
    destruct (Rlt_dec s 0); [reflexivity | lra].
  - intros mean m sdev se lowerci upperci cival size g Hu Hm Hneg Hsize.
    rewrite datagen_skips_ci by assumption. cbn [isinstance bind].
    rewrite (se_to_sd_number (PFloat se) se size eq_refl) by lia.
    cbn [bind]. unfold np_random_normal.
    rewrite (Hnum _ _ Hm); cbn [as_double bind].
    pose proof (sqrt_IZR_pos size Hsize) as Hroot.
    destruct (Rlt_dec (se * sqrt (IZR size)) 0); [reflexivity | nra].
  - intros mean m sdev s serror lowerci upperci cival size g Hu Hse Hm Hs Hneg.
    rewrite datagen_no_ci by assumption. unfold np_random_normal.
    rewrite (Hnum _ _ Hm), (Hnum _ _ Hs); cbn [bind].
    destruct (Rlt_dec s 0); [reflexivity |].
    destruct (Z.ltb_spec size 0); [reflexivity | lia].
Qed.

(** What [coerceToFloat] makes of one parameter. *)
Lemma coerceToFloat_cases (v r : pyval) :
  coerceToFloat float_of_string v = Ok r ->
  (v = PNone /\ r = PNone)
  \/ exists x, r = PFloat x
       /\ (number v = Some x
           \/ exists s, v = PStr s /\ float_of_string s = Some x).
Proof.
  destruct v as [| x | n | s]; unfold coerceToFloat;
    cbn [isinstance bind py_float].
  - intros [= <-]. now left.
  - intros [= <-]. right. exists x. split; [reflexivity | now left].
  - intros [= <-]. right. exists (IZR n). split; [reflexivity | now left].
  - destruct (float_of_string s) as [x |] eqn:E; cbn [bind]; [| discriminate].
    intros [= <-]. right. exists x. split; [reflexivity |]. right. eauto.
Qed.


(** X9: whatever [correctdatatype] returns holds only floats and [None]:
    [None] stays [None], a number comes back as the float of the same
    value, a numeric string as the float it denotes; no [int] and no
    string gets through. *)
Theorem correctdatatype_normalises mean sdev serror upperci lowerci
  m s se u l :
  correctdatatype float_of_string mean sdev serror upperci lowerci
  = Ok (m, s, se, u, l) ->
  Forall2
    (fun v r =>
       (v = PNone /\ r = PNone)
       \/ exists x, r = PFloat x
            /\ (number v = Some x
                \/ exists str, v = PStr str /\ float_of_string str = Some x))
    [mean; sdev; serror; upperci; lowerci] [m; s; se; u; l].
Proof.
  unfold correctdatatype. intros H.
  inv_bind H. inv_bind H. inv_bind H. inv_bind H. inv_bind H.
  injection H as <- <- <- <- <-.
  repeat (apply Forall2_cons; [now apply coerceToFloat_cases |]).
  apply Forall2_nil.
Qed.


End Generation.

(** ** compounddata *)

Section Aggregation.

Context (float_of_string : string -> option R).
Context {rng : Type} (gauss : rng -> R * rng).

Lemma for_range_rand_ext {A : Type} (idx : list nat)
  (body body' : nat -> rand rng A) :
  (forall i g, In i idx -> body i g = body' i g) ->
  forall g, for_range_rand idx body g = for_range_rand idx body' g.
Proof.
  induction idx as [| i idx IH]; intros H g; [reflexivity |].
  cbn [for_range_rand]. rewrite (H i g) by now left.
  destruct (body' i g) as [[x g1] | e]; cbn [bind]; [| reflexivity].
  rewrite IH by (intros j g' Hj; apply H; now right). reflexivity.
Qed.

Lemma for_range_rand_all {A : Type} (P : A -> Prop) (idx : list nat)
  (body : nat -> rand rng A) :
  (forall i g, In i idx -> exists x g', body i g = Ok (x, g') /\ P x) ->
  forall g, exists xs g',
    for_range_rand idx body g = Ok (xs, g')
    /\ List.length xs = List.length idx /\ Forall P xs.
Proof.
  induction idx as [| i idx IH]; intros H g.
  - exists [], g. repeat split; constructor.
  - destruct (H i g (or_introl eq_refl)) as (x & g1 & Hx & HP).
    destruct (IH (fun j g' Hj => H j g' (or_intror Hj)) g1)
      as (xs & g2 & Hxs & Hlen & Hall).
    exists (x :: xs), g2. cbn [for_range_rand]. rewrite Hx; cbn [bind].
    rewrite Hxs; cbn [bind]. repeat split; [cbn; congruence | now constructor].
Qed.

Lemma subscript_np_empty (count i : nat) :
  (i < count)%nat -> subscript (np_empty count) i = Ok PNone.
Proof.
  intros Hi. unfold np_empty, subscript.
  now rewrite nth_error_repeat by assumption.
Qed.

Lemma subscript_lt (l : list pyval) (i : nat) :
  (i < List.length l)%nat ->
  exists v, nth_error l i = Some v /\ subscript (NdArray l) i = Ok v.
Proof.
  intros Hi. cbn [subscript]. destruct (nth_error l i) as [v |] eqn:E.
  - eauto.
  - apply nth_error_None in E. lia.
Qed.

Lemma subscript_ge (l : list pyval) (i : nat) :
  (List.length l <= i)%nat -> subscript (NdArray l) i = Raise IndexError.
Proof.
  intros Hi. cbn [subscript]. now rewrite (proj2 (nth_error_None l i) Hi).
Qed.

Lemma coerceToFloat_None : coerceToFloat float_of_string PNone = Ok PNone.
Proof. reflexivity. Qed.

Lemma coerceToFloat_number (v : pyval) (x : R) :
  number v = Some x -> coerceToFloat float_of_string v = Ok (PFloat x).
Proof.
  destruct v; cbn; try discriminate; intros [= <-]; reflexivity.
Qed.

(** X11: the confidence-interval route of [compounddata] is closed: when
    [mean] is no array and [upperci] is an array of at least one entry, the
    call raises, whatever the entries and the other arguments are. *)
Theorem compounddata_interval_route_raises mean sdev serror uppers lowerci
  cival size g :
  is_ndarray mean = false -> uppers <> [] ->
  raises (compounddata float_of_string gauss mean sdev serror (NdArray uppers)
            lowerci cival size g).
Proof.
  intros Hmean Hne.
  unfold compounddata, compounddata_shape. rewrite Hmean.
  cbn [is_ndarray read_local bind].
  assert (Hpos : (0 < List.length uppers)%nat)
    by (destruct uppers; [contradiction | cbn; lia]).
  apply for_range_rand_raises with (i := O); [apply in_seq; lia |].
  intros g0. rewrite !subscript_np_empty by assumption. cbn [bind].
  destruct (subscript_lt uppers 0 Hpos) as (u & _ & ->). cbn [bind].
  destruct (subscript lowerci 0) as [l | e]; cbn [bind];
    [| eexists; reflexivity].
  unfold correctdatatype. rewrite !coerceToFloat_None. cbn [bind].
  destruct (coerceToFloat float_of_string u) as [fu | e]; cbn [bind];
    [| eexists; reflexivity].
  destruct (coerceToFloat float_of_string l) as [fl | e]; cbn [bind];
    [| eexists; reflexivity].
  destruct fu as [| x | n | str].
  - rewrite datagen_no_ci by reflexivity.
    destruct (np_random_normal_no_scale float_of_string gauss PNone size g0)
      as (e & -> & _). eexists; reflexivity.
  - apply datagen_ci_branch_raises.
  - rewrite datagen_no_ci by reflexivity.
    destruct (np_random_normal_no_scale float_of_string gauss PNone size g0)
      as (e & -> & _). eexists; reflexivity.
  - rewrite datagen_no_ci by reflexivity.
    destruct (np_random_normal_no_scale float_of_string gauss PNone size g0)
      as (e & -> & _). eexists; reflexivity.
Qed.

(** X12: means alone are not enough: with an array of at least one mean and
    neither [sdev] nor [serror] an array, the first [sdev[i]] fails and the
    call raises [TypeError] (for an [sdev] that is no string). *)
Theorem compounddata_means_only_raises means sdev serror upperci lowerci
  cival size g :
  means <> [] ->
  (forall str, sdev <> PStr str) ->
  is_ndarray serror = false ->
  compounddata float_of_string gauss (NdArray means) (Scalar sdev) serror
    upperci lowerci cival size g
  = Raise TypeError.
Proof.
  intros Hne Hsdev Hserror.
  unfold compounddata, compounddata_shape. cbn [is_ndarray]. rewrite Hserror.
  cbn [read_local bind].
  destruct means as [| m0 means]; [contradiction |].
  cbn [List.length seq for_range_rand subscript nth_error bind].
  destruct sdev as [| x | n | str]; try reflexivity.
  now destruct (Hsdev str).
Qed.

(** X13: with arrays of means and standard deviations, the standard
    errors, the bounds and the level that were passed play no part: the
    result is the same whatever they are. *)
Theorem compounddata_ignores_other_arguments means sdevs serror upperci
  lowerci cival serror' upperci' lowerci' cival' size g :
  compounddata float_of_string gauss (NdArray means) (NdArray sdevs) serror
    upperci lowerci cival size g
  = compounddata float_of_string gauss (NdArray means) (NdArray sdevs) serror'
      upperci' lowerci' cival' size g.
Proof.
  unfold compounddata, compounddata_shape. cbn [is_ndarray read_local bind].
  apply for_range_rand_ext. intros i g0 Hi. apply in_seq in Hi.
  rewrite !subscript_np_empty by lia.
  destruct (subscript (NdArray means) i) as [m |]; cbn [bind]; [| reflexivity].
  destruct (subscript (NdArray sdevs) i) as [s |]; cbn [bind]; [| reflexivity].
  unfold correctdatatype. rewrite !coerceToFloat_None.
  destruct (coerceToFloat float_of_string m) as [fm |]; cbn [bind];
    [| reflexivity].
  destruct (coerceToFloat float_of_string s) as [fs |]; cbn [bind];
    [| reflexivity].
  now rewrite !datagen_no_ci by reflexivity.
Qed.

(** X14: given numeric means, as many or more numeric standard deviations,
    none of them negative, and a size that is not negative, [compounddata]
    returns one sample per mean, each of [size] draws. *)
Theorem compounddata_returns means sdevs serror upperci lowerci cival size g :
  (List.length means <= List.length sdevs)%nat ->
  Forall (fun v => number v <> None) means ->
  Forall (fun v => exists s, number v = Some s /\ 0 <= s) sdevs ->
  (0 <= size)%Z ->
  exists samples g',
    compounddata float_of_string gauss (NdArray means) (NdArray sdevs) serror
      upperci lowerci cival size g = Ok (samples, g')
    /\ List.length samples = List.length means
    /\ Forall (fun sample => Z.of_nat (List.length sample) = size) samples.
Proof.
  intros Hlen Hmeans Hsdevs Hsize.
  unfold compounddata, compounddata_shape. cbn [is_ndarray read_local bind].
  match goal with
  | |- exists samples g', for_range_rand ?idx ?body g = _ /\ _ =>
    assert (Hbody : forall i g0, In i idx ->
               exists x g', body i g0 = Ok (x, g')
                            /\ Z.of_nat (List.length x) = size)
  end.
  2: { destruct (for_range_rand_all _ _ _ Hbody g)
         as (xs & g' & Hrun & Hcount & Hsizes).
       exists xs, g'. split; [exact Hrun |].
       split; [now rewrite Hcount, length_seq | exact Hsizes]. }
  intros i g0 Hi. apply in_seq in Hi.
  destruct (subscript_lt means i) as (m & Hm & ->); [lia |].
  destruct (subscript_lt sdevs i) as (s & Hs & ->); [lia |].
  rewrite !subscript_np_empty by lia. cbn [bind].
  rewrite Forall_forall in Hmeans, Hsdevs.
  pose proof (Hmeans m (nth_error_In _ _ Hm)) as Hmnum.
  destruct (Hsdevs s (nth_error_In _ _ Hs)) as (sd & Hsd & Hsdpos).
  destruct (number m) as [mu |] eqn:Hmu; [| contradiction].
  unfold correctdatatype.
  rewrite (coerceToFloat_number m mu Hmu), (coerceToFloat_number s sd Hsd).
  rewrite !coerceToFloat_None. cbn [bind].
  rewrite datagen_no_ci by reflexivity.
  rewrite np_random_normal_returns by assumption.
  pose proof (draws_length gauss (Z.to_nat size) mu sd g0) as Hdraws.
  destruct (draws gauss (Z.to_nat size) mu sd g0) as [sample g1].
  exists sample, g1. split; [reflexivity | cbn in Hdraws; lia].
Qed.

(** X15: passing float standard errors is passing the standard deviations
    serror_i * sqrt(size): with [sdev] no array and a size that is not
    negative, [compounddata] on the errors returns what it returns on those
    deviations. *)
Theorem compounddata_standard_errors means sdev (ses : list R) upperci
  lowerci cival serror' upperci' lowerci' cival' size g :
  is_ndarray sdev = false -> (0 <= size)%Z ->
  compounddata float_of_string gauss (NdArray means) sdev
    (NdArray (map PFloat ses)) upperci lowerci cival size g
  = compounddata float_of_string gauss (NdArray means)
      (NdArray (map (fun se => PFloat (se * sqrt (IZR size))) ses)) serror'
      upperci' lowerci' cival' size g.
Proof.
  intros Hsdev Hsize.
  unfold compounddata, compounddata_shape. cbn [is_ndarray]. rewrite Hsdev.
  cbn [read_local bind].
  apply for_range_rand_ext. intros i g0 Hi. apply in_seq in Hi.
  rewrite !subscript_np_empty by lia.
  destruct (subscript (NdArray means) i) as [m |]; cbn [bind]; [| reflexivity].
  cbn [subscript]. rewrite !nth_error_map.
  destruct (nth_error ses i) as [se |]; cbn [option_map bind];
    [| reflexivity].
  unfold correctdatatype. rewrite !coerceToFloat_None.
  destruct (coerceToFloat float_of_string m) as [fm |]; cbn [bind];
    [| reflexivity].
  rewrite !(coerceToFloat_number (PFloat _) _ eq_refl). cbn [bind].
  rewrite !datagen_skips_ci by reflexivity. cbn [isinstance bind].
  now rewrite (se_to_sd_number (PFloat se) se size eq_refl Hsize).
Qed.

(** X16: on an empty array of means [compounddata] returns no sample and
    draws nothing, whatever the other arguments are. *)
Theorem compounddata_no_means sdev serror upperci lowerci cival size g :
  compounddata float_of_string gauss (NdArray []) sdev serror upperci lowerci
    cival size g
  = Ok ([], g).
Proof.
  unfold compounddata, compounddata_shape. cbn [is_ndarray].
  destruct (is_ndarray sdev); [| destruct (is_ndarray serror)]; reflexivity.
Qed.

(** X17: fewer standard deviations than means make [compounddata] raise:
    no sample is returned for the means that do have one. *)
Theorem compounddata_short_sdev means sdevs serror upperci lowerci cival
  size g :
  (List.length sdevs < List.length means)%nat ->
  raises (compounddata float_of_string gauss (NdArray means) (NdArray sdevs)
            serror upperci lowerci cival size g).
Proof.
  intros Hlen.
  unfold compounddata, compounddata_shape. cbn [is_ndarray read_local bind].
  apply for_range_rand_raises with (i := List.length sdevs);
    [apply in_seq; lia |].
  intros g0.
  destruct (subscript_lt means (List.length sdevs) Hlen) as (m & _ & ->).
  cbn [bind]. rewrite subscript_ge by lia. eexists; reflexivity.
Qed.

End Aggregation.

(** ** databinning *)

Lemma for_range_shift {A : Type} (idx : list nat) (body : nat -> result A) :
  for_range (map S idx) body = for_range idx (fun i => body (S i)).
Proof.
  induction idx as [| i idx IH]; [reflexivity |].
  cbn [map for_range]. now rewrite IH.
Qed.

Lemma databinning_nil (bins_list : list R) : databinning [] bins_list = Ok [].
Proof. reflexivity. Qed.

Lemma databinning_cons (a : list R) (rest : list (list R)) (bins_list : list R) :
  databinning (a :: rest) bins_list
  = (h <- np_histogram a bins_list ;;
     hs <- databinning rest bins_list ;;
     Ok (h :: hs)).
Proof.
  unfold databinning. cbn [List.length seq for_range index nth_error bind].
  rewrite <- seq_shift, for_range_shift. reflexivity.
Qed.

Lemma databinning_Ok (datagenerated : list (list R)) (bins_list : list R) :
  any_decreasing bins_list = false ->
  databinning datagenerated bins_list
  = Ok (map (fun a => bin_counts a bins_list) datagenerated).
Proof.
  intros Hinc. induction datagenerated as [| a rest IH]; [reflexivity |].
  rewrite databinning_cons, IH. unfold np_histogram. rewrite Hinc.
  now rewrite np_diff_bin_counts.
Qed.

Lemma count_if_perm (p : R -> bool) (a a' : list R) :
  Permutation a a' -> count_if p a = count_if p a'.
Proof.
  unfold count_if. induction 1 as [| x a a' _ IH | x y a | a b c _ IH1 _ IH2];
    cbn; try congruence.
  - destruct (p x); cbn; congruence.
  - destruct (p x), (p y); reflexivity.
Qed.

Lemma search_sorted_inclusive_perm (a a' v : list R) :
  Permutation a a' ->
  search_sorted_inclusive a v = search_sorted_inclusive a' v.
Proof.
  intros Hp. induction v as [| e v IH]; [reflexivity |].
  destruct v as [| e' v'].
  - cbn. unfold searchsorted_right. now rewrite (count_if_perm _ a a' Hp).
  - change (search_sorted_inclusive a (e :: e' :: v'))
      with (Z.of_nat (searchsorted_left a e)
            :: search_sorted_inclusive a (e' :: v')).
    change (search_sorted_inclusive a' (e :: e' :: v'))
      with (Z.of_nat (searchsorted_left a' e)
            :: search_sorted_inclusive a' (e' :: v')).
    rewrite IH. unfold searchsorted_left.
    now rewrite (count_if_perm _ a a' Hp).
Qed.

(** X18: a histogram does not depend on the order of the draws: samples
    that are permutations of one another get the same histograms, and the
    same failure on invalid edges. *)
Theorem databinning_order_irrelevant (data data' : list (list R))
  (bins_list : list R) :
  Forall2 (@Permutation R) data data' ->
  databinning data bins_list = databinning data' bins_list.
Proof.
  induction 1 as [| a a' rest rest' Hp _ IH]; [reflexivity |].
  rewrite !databinning_cons, IH. unfold np_histogram.
  now rewrite (search_sorted_inclusive_perm a a' bins_list Hp).
Qed.

Lemma count_if_app (p : R -> bool) (a b : list R) :
  count_if p (a ++ b) = (count_if p a + count_if p b)%nat.
Proof. unfold count_if. now rewrite filter_app, length_app. Qed.

Lemma bin_counts_app (a b bins : list R) :
  bin_counts (a ++ b) bins = add_counts (bin_counts a bins) (bin_counts b bins).
Proof.
  induction bins as [| e0 bins IH]; [reflexivity |].
  destruct bins as [| e1 rest]; [reflexivity |].
  change (bin_counts (a ++ b) (e0 :: e1 :: rest))
    with (Z.of_nat (count_if (in_bin (match rest with [] => true | _ => false end)
                                     e0 e1) (a ++ b))
          :: bin_counts (a ++ b) (e1 :: rest)).
  change (bin_counts a (e0 :: e1 :: rest))
    with (Z.of_nat (count_if (in_bin (match rest with [] => true | _ => false end)
                                     e0 e1) a)
          :: bin_counts a (e1 :: rest)).
  change (bin_counts b (e0 :: e1 :: rest))
    with (Z.of_nat (count_if (in_bin (match rest with [] => true | _ => false end)
                                     e0 e1) b)
          :: bin_counts b (e1 :: rest)).
  rewrite IH, count_if_app. unfold add_counts. cbn [combine map fst snd].
  f_equal. lia.
Qed.

(** X19: histograms add up: on valid edges the histogram of two samples
    put together is the bin-by-bin sum of their histograms. *)
Theorem databinning_concat (a b bins_list : list R) :
  any_decreasing bins_list = false ->
  exists ha hb,
    databinning [a; b] bins_list = Ok [ha; hb]
    /\ databinning [a ++ b] bins_list = Ok [add_counts ha hb].
Proof.
  intros Hinc. exists (bin_counts a bins_list), (bin_counts b bins_list).
  rewrite !databinning_Ok by assumption. cbn [map].
  now rewrite bin_counts_app.
Qed.

(** X20: edges that decrease somewhere are refused with [ValueError] as
    soon as there is a sample to bin; without any sample the edges are not
    looked at and the result is empty. *)
Theorem databinning_invalid_edges (bins_list : list R) :
  databinning [] bins_list = Ok []
  /\ forall a rest,
      any_decreasing bins_list = true ->
      databinning (a :: rest) bins_list = Raise ValueError.
Proof.
  split; [reflexivity |]. intros a rest Hdec.
  rewrite databinning_cons. unfold np_histogram. now rewrite Hdec.
Qed.

Lemma count_if_le (p : R -> bool) (a : list R) :
  (count_if p a <= List.length a)%nat.
Proof. unfold count_if. apply filter_length_le. Qed.

Lemma bin_counts_bounds (a bins : list R) :
  Forall (fun c => (0 <= c <= Z.of_nat (List.length a))%Z) (bin_counts a bins).
Proof.
  induction bins as [| e0 bins IH]; [constructor |].
  destruct bins as [| e1 rest]; [constructor |].
  change (bin_counts a (e0 :: e1 :: rest))
    with (Z.of_nat (count_if (in_bin (match rest with [] => true | _ => false end)
                                     e0 e1) a)
          :: bin_counts a (e1 :: rest)).
  constructor; [| exact IH].
  pose proof (count_if_le (in_bin (match rest with [] => true | _ => false end)
                                  e0 e1) a). lia.
Qed.

(** X21: on valid edges every count of a histogram lies between 0 and the
    number of draws of its sample; the histogram of an empty sample is all
    zeros. *)
Theorem databinning_count_bounds (datagenerated : list (list R))
  (bins_list : list R) (yhist : list (list Z)) :
  any_decreasing bins_list = false ->
  databinning datagenerated bins_list = Ok yhist ->
  forall i a h,
    nth_error datagenerated i = Some a -> nth_error yhist i = Some h ->
    Forall (fun c => (0 <= c <= Z.of_nat (List.length a))%Z) h.
Proof.
  intros Hinc Hrun i a h Ha Hh.
  rewrite databinning_Ok in Hrun by assumption. injection Hrun as <-.
  rewrite nth_error_map, Ha in Hh. injection Hh as <-.
  apply bin_counts_bounds.
Qed.

(** ** pdfgen *)

(** A loop whose iterations can only fail with [e] fails with [e] as soon as
    one of them does. *)
Lemma for_range_raise_uniform {A : Type} (idx : list nat)
  (body : nat -> result A) (e : pyexc) :
  (forall i, In i idx -> (exists x, body i = Ok x) \/ body i = Raise e) ->
  (exists i, In i idx /\ body i = Raise e) ->
  for_range idx body = Raise e.
Proof.
  induction idx as [| j idx IH]; intros Hall (i & Hin & Hi); [destruct Hin |].
  cbn [for_range].
  destruct (Hall j (or_introl eq_refl)) as [[x Hx] | Hj].
  - rewrite Hx; cbn [bind].
    rewrite IH; [reflexivity | intros k Hk; apply Hall; now right |].
    destruct Hin as [-> | Hin]; [congruence | eauto].
  - now rewrite Hj.
Qed.

Lemma index_ge {A : Type} (a : list A) (i : nat) :
  (List.length a <= i)%nat -> index a i = Raise IndexError.
Proof. intros Hi. unfold index. now rewrite (proj2 (nth_error_None a i) Hi). Qed.


(** X22: [pdfgen] reads one standard deviation per mean: with fewer
    deviations than means it raises [IndexError], and deviations beyond
    the number of means are never read. *)
Theorem pdfgen_lengths (mean sdev bins_list : list R) :
  ((List.length sdev < List.length mean)%nat ->
   pdfgen mean sdev bins_list = Raise IndexError)
  /\ ((List.length mean <= List.length sdev)%nat ->
      forall extra,
        pdfgen mean (sdev ++ extra) bins_list = pdfgen mean sdev bins_list).
Proof.
  split.
  - intros Hlen. unfold pdfgen. apply for_range_raise_uniform.
    + intros i Hi. apply in_seq in Hi.
      destruct (le_lt_dec (List.length sdev) i) as [Hge | Hlt].
      * right. now rewrite index_ge.
      * left. destruct (index_lt sdev i Hlt) as (s & _ & ->).
        destruct (index_lt mean i) as (m & _ & ->); [lia |].
        cbn [bind]. eauto.
    + exists (List.length sdev). split; [apply in_seq; lia |].
      now rewrite index_ge.
  - intros Hlen extra. unfold pdfgen. apply for_range_ext.
    intros i Hi. apply in_seq in Hi. unfold index.
    now rewrite nth_error_app1 by lia.
Qed.





(** ** percent_overlap *)


(** X26: with a standard deviation for every mean, a deviation that is
    zero, negative, or so small that its square underflows to zero makes
    [percent_overlap] raise [StatisticsError]; with deviations that pass
    that test but fewer of them than means it raises [IndexError]; and
    without any mean the report is empty. *)
Theorem percent_overlap_failures (mean sdev : list R) :
  ((List.length mean <= List.length sdev)%nat ->
   (exists i s, (i < List.length mean)%nat
                /\ nth_error sdev i = Some s
                /\ (s <= 0 \/ s * s <= underflow_bound)) ->
   percent_overlap mean sdev = Raise StatisticsError)
  /\ (Forall (fun s => 0 < s /\ underflow_bound < s * s) sdev ->
      (List.length sdev < List.length mean)%nat ->
      percent_overlap mean sdev = Raise IndexError)
  /\ percent_overlap [] sdev = Ok [].
Proof.
  pose proof underflow_bound_range as Hu.
  assert (Hbody : forall s i,
             (exists r, self_overlap_outcome s i = Ok r)
             \/ self_overlap_outcome s i = Raise StatisticsError).
  { intros s i. unfold self_overlap_outcome.
    destruct (Rlt_dec s 0); [now right |].
    destruct (Rle_dec (s * s) underflow_bound); [now right |].
    destruct (Rle_dec overflow_bound (s * s)); left; eauto. }
  split; [| split; [| reflexivity]].
  - intros Hlen (i & s & Hi & Hs & Hbad).
    rewrite percent_overlap_unfold. apply for_range_raise_uniform.
    + intros j Hj. apply in_seq in Hj.
      destruct (index_lt mean j) as (m & _ & ->); [lia |].
      destruct (index_lt sdev j) as (sj & _ & ->); [lia |].
      cbn [bind]. apply Hbody.
    + exists i. split; [apply in_seq; lia |].
      destruct (index_lt mean i Hi) as (m & _ & ->).
      rewrite (index_Some _ _ _ Hs). cbn [bind].
      unfold self_overlap_outcome.
      destruct (Rlt_dec s 0); [reflexivity |].
      destruct (Rle_dec (s * s) underflow_bound); [reflexivity |].
      destruct Hbad as [Hle | Hsq]; [| contradiction].
      assert (s = 0) by lra. subst s. rewrite Rmult_0_l in *. lra.
  - intros Hpos Hlen.
    rewrite percent_overlap_unfold. apply for_range_raise_uniform.
    + intros j Hj. apply in_seq in Hj.
      destruct (index_lt mean j) as (m & _ & ->); [lia |]. cbn [bind].
      destruct (le_lt_dec (List.length sdev) j) as [Hge | Hlt].
      * right. now rewrite index_ge.
      * left. destruct (index_lt sdev j Hlt) as (sj & Hsj & ->). cbn [bind].
        rewrite Forall_forall in Hpos.
        destruct (Hpos sj (nth_error_In _ _ Hsj)) as [Hp Hq].
        unfold self_overlap_outcome.
        destruct (Rlt_dec sj 0); [lra |].
        destruct (Rle_dec (sj * sj) underflow_bound); [lra |].
        destruct (Rle_dec overflow_bound (sj * sj)); eauto.
    + exists (List.length sdev). split; [apply in_seq; lia |].
      destruct (index_lt mean (List.length sdev) Hlen) as (m & _ & ->).
      cbn [bind]. now rewrite index_ge.
Qed.

(** * The further properties at concrete inputs *)

Lemma size_100_nonneg : (0 <= 100)%Z.
Proof. lia. Defined.

Lemma se_to_sd_behaviour_witness :
  number (PInt 2) = Some 2 /\ (0 <= 100)%Z
  /\ se_to_sd (PInt 2) 100 = Ok (PFloat (2 * sqrt (IZR 100))).
Proof.
  split; [reflexivity | split; [exact size_100_nonneg |]].
  exact (proj1 se_to_sd_behaviour (PInt 2) 2 100%Z eq_refl size_100_nonneg).
Defined.

Lemma ci_to_sd_error_order_witness :
  In 95.0 (map fst zvals) /\ (-1 < 0)%Z
  /\ ci_to_sd example_float_of_string PNone PNone (PFloat 95.0) (-1)
     = Raise ValueError.
Proof.
  assert (Hneg : (-1 < 0)%Z) by lia.
  split; [exact level_95_in_table | split; [exact Hneg |]].
  exact (proj1 (proj2 (proj2 (ci_to_sd_error_order example_float_of_string)))
           PNone PNone 95.0 (-1)%Z level_95_in_table Hneg).
Defined.

Lemma ci_to_sd_95_example :
  ci_to_sd example_float_of_string (PFloat 0.2) (PFloat 0.4) (PFloat 95.0) 100
  = Ok (PFloat (sqrt (IZR 100) * (0.4 - 0.2) / 1.960)).
Proof. apply ci_to_sd_floats; [exact zvals_95 | lia]. Defined.

Lemma ci_to_sd_bounds_order_witness :
  ci_to_sd example_float_of_string (PFloat 0.2) (PFloat 0.4) (PFloat 95.0) 100
  = Ok (PFloat (sqrt (IZR 100) * (0.4 - 0.2) / 1.960))
  /\ ci_to_sd example_float_of_string (PFloat 0.4) (PFloat 0.2) (PFloat 95.0)
       100
     = Ok (PFloat (- (sqrt (IZR 100) * (0.4 - 0.2) / 1.960))).
Proof.
  split; [exact ci_to_sd_95_example |].
  exact (proj1 (ci_to_sd_bounds_order example_float_of_string 0.2 0.4 95.0 _
                  100%Z ci_to_sd_95_example)).
Defined.


Lemma ci_to_sd_90_example :
  ci_to_sd example_float_of_string (PFloat 0.2) (PFloat 0.4) (PFloat 90.0) 100
  = Ok (PFloat (sqrt (IZR 100) * (0.4 - 0.2) / 1.645)).
Proof. apply ci_to_sd_floats; [dict_lookup | lia]. Defined.

Lemma ci_to_sd_level_monotone_witness :
  0.2 <= 0.4 /\ 90.0 <= 95.0
  /\ sqrt (IZR 100) * (0.4 - 0.2) / 1.960
     <= sqrt (IZR 100) * (0.4 - 0.2) / 1.645.
Proof.
  assert (Hb : 0.2 <= 0.4) by lra.
  assert (Hl : 90.0 <= 95.0) by lra.
  split; [exact Hb | split; [exact Hl |]].
  exact (proj1 (ci_to_sd_level_monotone example_float_of_string)
           0.2 0.4 90.0 95.0 _ _ 100%Z Hb Hl ci_to_sd_90_example
           ci_to_sd_95_example).
Defined.

Lemma datagen_serror_overrides_witness :
  isinstance (PInt 1) (Class Cfloat) = Ok false /\ (0 <= 100)%Z
  /\ datagen example_float_of_string example_gauss (PFloat 24.12)
       (PFloat 3.87) (PFloat 0.5) (PInt 0) (PInt 1) (PFloat 95.0) 100 0%Z
     = np_random_normal example_float_of_string example_gauss (PFloat 24.12)
         (PFloat (0.5 * sqrt (IZR 100))) 100 0%Z.
Proof.
  split; [reflexivity | split; [exact size_100_nonneg |]].
  exact (proj1 (datagen_serror_overrides example_float_of_string example_gauss
                  (PFloat 24.12) (PFloat 3.87) 0.5 (PInt 0) (PInt 1)
                  (PFloat 95.0) 100%Z 0%Z eq_refl size_100_nonneg)).
Defined.

Lemma datagen_ignores_interval_witness :
  isinstance (PInt 1) (Class Cfloat) = Ok false
  /\ isinstance PNone (Class Cfloat) = Ok false
  /\ datagen example_float_of_string example_gauss (PFloat 24.12)
       (PFloat 3.87) PNone (PInt 0) (PInt 1) (PFloat 95.0) 100 0%Z
     = datagen example_float_of_string example_gauss (PFloat 24.12)
         (PFloat 3.87) PNone PNone PNone (PFloat 80.0) 100 0%Z.
Proof.
  split; [reflexivity | split; [reflexivity |]].
  exact (datagen_ignores_interval example_float_of_string example_gauss
           (PFloat 24.12) (PFloat 3.87) PNone (PInt 0) (PInt 1) (PFloat 95.0)
           PNone PNone (PFloat 80.0) 100%Z 0%Z eq_refl eq_refl).
Defined.

Lemma datagen_negative_raises_witness :
  -1 < 0
  /\ datagen example_float_of_string example_gauss (PFloat 24.12)
       (PFloat (-1)) PNone PNone PNone (PFloat 95.0) 100 0%Z
     = Raise ValueError.
Proof.
  assert (Hneg : -1 < 0) by lra.
  split; [exact Hneg |].
  exact (proj1 (datagen_negative_raises example_float_of_string example_gauss)
           (PFloat 24.12) 24.12 (PFloat (-1)) (-1) PNone PNone PNone
           (PFloat 95.0) 100%Z 0%Z eq_refl eq_refl eq_refl eq_refl Hneg).
Defined.

Lemma correctdatatype_example :
  correctdatatype example_float_of_string (PInt 24) (PStr "3.87") PNone PNone
    PNone
  = Ok (PFloat 24, PFloat 3.87, PNone, PNone, PNone).
Proof. reflexivity. Defined.

Lemma correctdatatype_normalises_witness :
  correctdatatype example_float_of_string (PInt 24) (PStr "3.87") PNone PNone
    PNone
  = Ok (PFloat 24, PFloat 3.87, PNone, PNone, PNone)
  /\ Forall2
       (fun v r =>
          (v = PNone /\ r = PNone)
          \/ exists x, r = PFloat x
               /\ (number v = Some x
                   \/ exists str, v = PStr str
                                  /\ example_float_of_string str = Some x))
       [PInt 24; PStr "3.87"; PNone; PNone; PNone]
       [PFloat 24; PFloat 3.87; PNone; PNone; PNone].
Proof.
  split; [exact correctdatatype_example |].
  exact (correctdatatype_normalises example_float_of_string _ _ _ _ _ _ _ _ _
           _ correctdatatype_example).
Defined.


Lemma one_upper_bound : [PFloat 25.5] <> [].
Proof. discriminate. Defined.

Lemma compounddata_interval_route_raises_witness :
  is_ndarray (Scalar PNone) = false /\ [PFloat 25.5] <> []
  /\ raises (compounddata example_float_of_string example_gauss
               (Scalar PNone) (Scalar PNone) (Scalar PNone)
               (NdArray [PFloat 25.5]) (NdArray [PFloat 23.5]) (PFloat 95.0)
               1000 0%Z).
Proof.
  split; [reflexivity | split; [exact one_upper_bound |]].
  exact (compounddata_interval_route_raises example_float_of_string
           example_gauss (Scalar PNone) (Scalar PNone) (Scalar PNone)
           [PFloat 25.5] (NdArray [PFloat 23.5]) (PFloat 95.0) 1000%Z 0%Z
           eq_refl one_upper_bound).
Defined.

Lemma one_mean : [PFloat 24.12] <> [].
Proof. discriminate. Defined.

Lemma none_is_no_string : forall str, PNone <> PStr str.
Proof. discriminate. Defined.

Lemma compounddata_means_only_raises_witness :
  [PFloat 24.12] <> [] /\ is_ndarray (Scalar PNone) = false
  /\ compounddata example_float_of_string example_gauss
       (NdArray [PFloat 24.12]) (Scalar PNone) (Scalar PNone) (Scalar PNone)
       (Scalar PNone) (PFloat 95.0) 1000 0%Z
     = Raise TypeError.
Proof.
  split; [exact one_mean | split; [reflexivity |]].
  exact (compounddata_means_only_raises example_float_of_string example_gauss
           [PFloat 24.12] PNone (Scalar PNone) (Scalar PNone) (Scalar PNone)
           (PFloat 95.0) 1000%Z 0%Z one_mean none_is_no_string eq_refl).
Defined.

Lemma two_means_numeric :
  Forall (fun v => number v <> None) [PFloat 24.12; PInt 25].
Proof. repeat constructor; discriminate. Defined.

Lemma two_sdevs_nonneg :
  Forall (fun v => exists s, number v = Some s /\ 0 <= s)
    [PFloat 3.87; PInt 4].
Proof.
  repeat constructor.
  - exists 3.87. split; [reflexivity | lra].
  - exists 4. split; [reflexivity | lra].
Defined.

Lemma compounddata_returns_witness :
  Forall (fun v => number v <> None) [PFloat 24.12; PInt 25]
  /\ Forall (fun v => exists s, number v = Some s /\ 0 <= s)
       [PFloat 3.87; PInt 4]
  /\ exists samples g',
      compounddata example_float_of_string example_gauss
        (NdArray [PFloat 24.12; PInt 25]) (NdArray [PFloat 3.87; PInt 4])
        (Scalar PNone) (Scalar PNone) (Scalar PNone) (PFloat 95.0) 100 0%Z
      = Ok (samples, g')
      /\ List.length samples = 2%nat
      /\ Forall (fun sample => Z.of_nat (List.length sample) = 100%Z) samples.
Proof.
  split; [exact two_means_numeric | split; [exact two_sdevs_nonneg |]].
  exact (compounddata_returns example_float_of_string example_gauss
           [PFloat 24.12; PInt 25] [PFloat 3.87; PInt 4] (Scalar PNone)
           (Scalar PNone) (Scalar PNone) (PFloat 95.0) 100%Z 0%Z
           (le_n 2) two_means_numeric two_sdevs_nonneg size_100_nonneg).
Defined.

Lemma compounddata_standard_errors_witness :
  is_ndarray (Scalar PNone) = false /\ (0 <= 100)%Z
  /\ compounddata example_float_of_string example_gauss
       (NdArray [PFloat 24.12]) (Scalar PNone) (NdArray (map PFloat [0.5]))
       (Scalar PNone) (Scalar PNone) (PFloat 95.0) 100 0%Z
     = compounddata example_float_of_string example_gauss
         (NdArray [PFloat 24.12])
         (NdArray (map (fun se => PFloat (se * sqrt (IZR 100))) [0.5]))
         (Scalar PNone) (Scalar PNone) (Scalar PNone) (PFloat 95.0) 100 0%Z.
Proof.
  split; [reflexivity | split; [exact size_100_nonneg |]].
  exact (compounddata_standard_errors example_float_of_string example_gauss
           [PFloat 24.12] (Scalar PNone) [0.5] (Scalar PNone) (Scalar PNone)
           (PFloat 95.0) (Scalar PNone) (Scalar PNone) (Scalar PNone)
           (PFloat 95.0) 100%Z 0%Z eq_refl size_100_nonneg).
Defined.

Lemma compounddata_short_sdev_witness :
  (List.length [PFloat 3.87] < List.length [PFloat 24.12; PFloat 24.43])%nat
  /\ raises (compounddata example_float_of_string example_gauss
               (NdArray [PFloat 24.12; PFloat 24.43]) (NdArray [PFloat 3.87])
               (Scalar PNone) (Scalar PNone) (Scalar PNone) (PFloat 95.0) 100
               0%Z).
Proof.
  split; [exact (le_n 2) |].
  exact (compounddata_short_sdev example_float_of_string example_gauss
           [PFloat 24.12; PFloat 24.43] [PFloat 3.87] (Scalar PNone)
           (Scalar PNone) (Scalar PNone) (PFloat 95.0) 100%Z 0%Z (le_n 2)).
Defined.

Lemma swapped_sample : Forall2 (@Permutation R) [[11; 25; 50]] [[50; 11; 25]].
Proof.
  constructor; [| constructor].
  apply Permutation_sym, (Permutation_cons_app [11; 25] [] 50).
  apply Permutation_refl.
Defined.

Lemma databinning_order_irrelevant_witness :
  Forall2 (@Permutation R) [[11; 25; 50]] [[50; 11; 25]]
  /\ databinning [[11; 25; 50]] [10; 20; 40]
     = databinning [[50; 11; 25]] [10; 20; 40].
Proof.
  split; [exact swapped_sample |].
  exact (databinning_order_irrelevant _ _ [10; 20; 40] swapped_sample).
Defined.

Lemma databinning_concat_witness :
  any_decreasing [10; 20; 40] = false
  /\ exists ha hb,
      databinning [[11; 25]; [50]] [10; 20; 40] = Ok [ha; hb]
      /\ databinning [[11; 25] ++ [50]] [10; 20; 40] = Ok [add_counts ha hb].
Proof.
  split; [exact edges_10_20_40 |].
  exact (databinning_concat [11; 25] [50] [10; 20; 40] edges_10_20_40).
Defined.

Lemma edges_40_10 : any_decreasing [40; 10] = true.
Proof.
  cbn [any_decreasing]. rewrite (proj2 (Rltb_true 10 40)) by lra. reflexivity.
Defined.

Lemma databinning_invalid_edges_witness :
  any_decreasing [40; 10] = true
  /\ databinning [[11; 25; 50]] [40; 10] = Raise ValueError.
Proof.
  split; [exact edges_40_10 |].
  exact (proj2 (databinning_invalid_edges [40; 10]) [11; 25; 50] []
           edges_40_10).
Defined.

Lemma databinning_example :
  databinning [[11; 25; 50]] [10; 20; 40]
  = Ok [bin_counts [11; 25; 50] [10; 20; 40]].
Proof. exact (databinning_Ok [[11; 25; 50]] [10; 20; 40] edges_10_20_40). Defined.

Lemma databinning_count_bounds_witness :
  any_decreasing [10; 20; 40] = false
  /\ databinning [[11; 25; 50]] [10; 20; 40]
     = Ok [bin_counts [11; 25; 50] [10; 20; 40]]
  /\ Forall (fun c => (0 <= c <= 3)%Z) (bin_counts [11; 25; 50] [10; 20; 40]).
Proof.
  split; [exact edges_10_20_40 | split; [exact databinning_example |]].
  exact (databinning_count_bounds [[11; 25; 50]] [10; 20; 40] _
           edges_10_20_40 databinning_example 0 [11; 25; 50] _ eq_refl
           eq_refl).
Defined.

Lemma pdfgen_lengths_witness :
  (List.length [3.87]%R < List.length [24.12; 24.43]%R)%nat
  /\ pdfgen [24.12; 24.43] [3.87] [10; 25; 40] = Raise IndexError.
Proof.
  split; [exact (le_n 2) |].
  exact (proj1 (pdfgen_lengths [24.12; 24.43] [3.87] [10; 25; 40]) (le_n 2)).
Defined.






Lemma zero_sdev_at_1 :
  exists i s, (i < List.length [24.12; 24.43]%R)%nat
              /\ nth_error [3.87; 0] i = Some s
              /\ (s <= 0 \/ s * s <= underflow_bound).
Proof.
  exists 1%nat, 0.
  split; [exact (le_n 2) | split; [reflexivity | left; lra]].
Defined.

Lemma percent_overlap_failures_witness :
  (exists i s, (i < List.length [24.12; 24.43]%R)%nat
               /\ nth_error [3.87; 0] i = Some s
               /\ (s <= 0 \/ s * s <= underflow_bound))
  /\ percent_overlap [24.12; 24.43] [3.87; 0] = Raise StatisticsError.
Proof.
  split; [exact zero_sdev_at_1 |].
  exact (proj1 (percent_overlap_failures [24.12; 24.43] [3.87; 0]) (le_n 2)
           zero_sdev_at_1).
Defined.
